(** * CircuitPython_2_Micropython: bus-device guards, digital I/O and PWM shims

    A shallow embedding of the adapter classes of the repository
    (ubus_device.py, bus_device.py, esp8266/udigitalio.py,
    esp32/udigitalio.py, digi_io.py, pwm.py) over an explicit model of the
    MicroPython [machine] peripherals they drive, and the properties of
    the bus-device guard proved on it. *)

From Stdlib Require Import ZArith List String HexString Bool Lia SpecFloat.
From Stdlib Require Floats Uint63.
From stdpp Require Import gmap strings list.

Local Open Scope Z_scope.

(** ** Exceptions and the outcome of a call *)

Inductive exn : Type :=
| ValueError (msg : string)
| AttributeError (msg : string)
| TypeError (msg : string)
| OverflowError (msg : string)
| OSError (errno : Z).

Inductive outcome (A : Type) : Type :=
| Return (a : A)
| Raise (e : exn).
Arguments Return {A} a.
Arguments Raise {A} e.

(** ** The platform: what [machine] exposes to the adapters *)

Inductive pin_mode : Type := IN | OUT | OPEN_DRAIN.

(** The electrical state of one GPIO. *)
Record PinHW : Type := mkPinHW {
  hw_mode : pin_mode;
  hw_pull : option Z;
  hw_level : bool
}.

Definition PinHW_reset : PinHW := mkPinHW IN None false.

(** The SPI controller is either deinitialised or holds one configuration. *)
Record SpiConf : Type := mkSpiConf {
  conf_baudrate : Z;
  conf_polarity : Z;
  conf_phase : Z
}.

(** A [machine.I2C] object: one handed in by the caller, or one built by
    the guard with the keyword arguments it passed. *)
Inductive I2CBus : Type :=
| I2C_given (id : nat)
| I2C_new (scl : nat) (sda : nat) (frequency : option Z).

(** Buffer objects.  Slicing a [bytearray] copies; slicing a
    [memoryview] gives another window on the same storage. *)
Inductive pyobj : Type :=
| Bytearray (data : list Z)
| Memoryview (base : nat) (off : nat) (len : nat).

(** Calls that reach the hardware, in the order they are made. *)
Inductive event : Type :=
| EvPinInit (pin : nat) (m : pin_mode) (pull : option Z) (value : option bool)
| EvPinValue (pin : nat) (v : bool)
| EvSpiInit (baudrate polarity phase : Z)
| EvSpiDeinit
| EvI2CScan (bus : I2CBus)
| EvI2CReadfromInto (bus : I2CBus) (addr : Z) (n : nat) (stop : bool)
| EvI2CWriteto (bus : I2CBus) (addr : Z) (data : list Z) (stop : bool).

(** What the runtime does with [obj.attr = v] on a native [machine.Pin],
    whose [value] is a method: MicroPython refuses the store; a permissive
    object would shadow the method in its instance dictionary. *)
Inductive setattr_policy : Type := Refuse | Shadow.

Record World : Type := mkWorld {
  pins : gmap nat PinHW;
  spi : option SpiConf;
  heap : gmap nat pyobj;
  wire : list Z;                 (* addresses that answer a scan *)
  rx : list Z;                   (* bytes the addressed device will send *)
  faults : list (option exn);    (* what the next I2C transfers answer *)
  native_setattr : setattr_policy;
  log : list event
}.

Definition set_pins (f : gmap nat PinHW -> gmap nat PinHW) (w : World) : World :=
  mkWorld (f (pins w)) (spi w) (heap w) (wire w) (rx w) (faults w)
          (native_setattr w) (log w).

Definition set_spi (c : option SpiConf) (w : World) : World :=
  mkWorld (pins w) c (heap w) (wire w) (rx w) (faults w)
          (native_setattr w) (log w).

Definition set_heap (f : gmap nat pyobj -> gmap nat pyobj) (w : World) : World :=
  mkWorld (pins w) (spi w) (f (heap w)) (wire w) (rx w) (faults w)
          (native_setattr w) (log w).

Definition set_rx (r : list Z) (w : World) : World :=
  mkWorld (pins w) (spi w) (heap w) (wire w) r (faults w)
          (native_setattr w) (log w).

Definition set_faults (fs : list (option exn)) (w : World) : World :=
  mkWorld (pins w) (spi w) (heap w) (wire w) (rx w) fs
          (native_setattr w) (log w).

Definition emit (e : event) (w : World) : World :=
  mkWorld (pins w) (spi w) (heap w) (wire w) (rx w) (faults w)
          (native_setattr w) (log w ++ [e]).

(** ** A state-and-exception monad for method bodies *)

Definition M (A : Type) : Type := World -> outcome A * World.

Definition ret {A} (a : A) : M A := fun w => (Return a, w).

Definition raise {A} (e : exn) : M A := fun w => (Raise e, w).

Definition bind {A B} (m : M A) (k : A -> M B) : M B :=
  fun w => match m w with
           | (Return a, w') => k a w'
           | (Raise e, w') => (Raise e, w')
           end.

Definition modify (f : World -> World) : M unit := fun w => (Return tt, f w).

Definition gets {A} (f : World -> A) : M A := fun w => (Return (f w), w).

#[global] Instance M_ret : MRet M := @ret.
#[global] Instance M_bind : MBind M := fun A B k m => bind m k.

(** [with mgr as r: body]: [__exit__] runs whenever [__enter__] returned;
    the exception of the body is re-raised unless [__exit__] returns a
    true value. *)
Definition with_ {R} (enter : M R) (exit : option exn -> M bool)
           (body : R -> M unit) : M unit :=
  fun w =>
    match enter w with
    | (Raise e, w1) => (Raise e, w1)
    | (Return r, w1) =>
        match body r w1 with
        | (Return _, w2) =>
            match exit None w2 with
            | (Return _, w3) => (Return tt, w3)
            | (Raise e', w3) => (Raise e', w3)
            end
        | (Raise e, w2) =>
            match exit (Some e) w2 with
            | (Return b, w3) => if b then (Return tt, w3) else (Raise e, w3)
            | (Raise e', w3) => (Raise e', w3)
            end
        end
    end.

(** ** machine.Pin *)

Module Pin.

Definition PULL_UP : Z := 1.
Definition PULL_DOWN : Z := 2.

Definition state (p : nat) (w : World) : PinHW :=
  default PinHW_reset (pins w !! p).

(** [Pin.init(mode, pull=.., value=..)]: only the arguments given are
    applied. *)
Definition init (p : nat) (m : pin_mode) (pull : option Z)
           (value : option bool) : M unit :=
  modify (fun w =>
    let old := state p w in
    let new := mkPinHW m
                 (match pull with Some q => Some q | None => hw_pull old end)
                 (match value with Some v => v | None => hw_level old end) in
    emit (EvPinInit p m pull value) (set_pins (insert p new) w)).

(** [Pin(id, mode)] *)
Definition new (p : nat) (m : pin_mode) : M nat :=
  init p m None None ;; mret p.

(** [pin.value(v)] *)
Definition set_value (p : nat) (v : bool) : M unit :=
  modify (fun w =>
    let old := state p w in
    emit (EvPinValue p v)
         (set_pins (insert p (mkPinHW (hw_mode old) (hw_pull old) v)) w)).

(** [pin.value()] *)
Definition get_value (p : nat) : M bool :=
  gets (fun w => hw_level (state p w)).

(** [pin.value = v]: an attribute store on the native object, not a
    call of the method; the hardware is not touched. *)
Definition store_attr_value (p : nat) (v : bool) : M unit :=
  fun w => match native_setattr w with
           | Refuse =>
               (Raise (AttributeError "'Pin' object has no attribute 'value'"), w)
           | Shadow => (Return tt, w)
           end.

End Pin.

(** ** machine.SPI *)

Module SPI.

Definition init (baudrate polarity phase : Z) : M unit :=
  modify (fun w => emit (EvSpiInit baudrate polarity phase)
                        (set_spi (Some (mkSpiConf baudrate polarity phase)) w)).

Definition deinit : M unit :=
  modify (fun w => emit EvSpiDeinit (set_spi None w)).

End SPI.

(** ** esp8266/udigitalio.py *)

Module esp8266.

Module Pull.
Definition UP : Z := Pin.PULL_UP.
End Pull.

Record DigitalInOut : Type := mkDigitalInOut { _pin : nat }.

Definition __init__ (pin_number : nat) : M DigitalInOut :=
  p ← Pin.new pin_number IN; mret (mkDigitalInOut p).

(** [switch_to_output(self, pull=None, value=False)] *)
Definition switch_to_output (self : DigitalInOut) (pull : option Z)
           (value : bool) : M unit :=
  match pull with
  | None => Pin.init (_pin self) OUT None (Some value)
  | Some q =>
      if Z.eqb q Pull.UP
      then Pin.init (_pin self) OUT (Some q) (Some value)
      else raise (AttributeError
             "pull parameter is unrecognized & not defined in class 'udigitalio.Pull'")
  end.

Definition switch_to_input (self : DigitalInOut) (pull : option Z) : M unit :=
  Pin.init (_pin self) IN None None.

Definition value (self : DigitalInOut) : M bool := Pin.get_value (_pin self).

Definition set_value (self : DigitalInOut) (val : bool) : M unit :=
  Pin.set_value (_pin self) val.

End esp8266.

(** ** esp32/udigitalio.py *)

Module esp32.

Record DigitalInOut : Type := mkDigitalInOut { _pin : nat }.

Definition __init__ (pin_number : nat) : M DigitalInOut :=
  p ← Pin.new pin_number IN; mret (mkDigitalInOut p).

(** [switch_to_output(self, value=False)] *)
Definition switch_to_output (self : DigitalInOut) (value : bool) : M unit :=
  Pin.init (_pin self) OUT None (Some value).

Definition switch_to_input (self : DigitalInOut) (pull : option Z) : M unit :=
  Pin.init (_pin self) IN None None.

Definition value (self : DigitalInOut) : M bool := Pin.get_value (_pin self).

Definition set_value (self : DigitalInOut) (val : bool) : M unit :=
  Pin.set_value (_pin self) val.

End esp32.

(** ** digi_io.py *)

Module digi_io.

Record DigitalInOut : Type := mkDigitalInOut { _pin : nat }.

Definition __init__ (pin : nat) : M DigitalInOut :=
  p ← Pin.new pin IN; mret (mkDigitalInOut p).

(** [switch_to_output(self, value=False)] *)
Definition switch_to_output (self : DigitalInOut) (value : bool) : M unit :=
  Pin.init (_pin self) OUT None (Some value).

Definition switch_to_input (self : DigitalInOut) : M unit :=
  Pin.init (_pin self) IN None None.

Definition value (self : DigitalInOut) : M bool := Pin.get_value (_pin self).

Definition set_value (self : DigitalInOut) (val : bool) : M unit :=
  Pin.set_value (_pin self) val.

End digi_io.

(** The object handed to a guard as [chip_select] is any of the
    [DigitalInOut] wrappers; attribute lookups dispatch on its class.
    (The wrapper of udigitalio.py is not among them: its constructor
    names the module [machine], which that file does not import, so no
    object of it can be built.) *)
Inductive DigitalIO : Type :=
| IO_esp8266 (d : esp8266.DigitalInOut)
| IO_esp32 (d : esp32.DigitalInOut)
| IO_digi_io (d : digi_io.DigitalInOut).

Definition io_pin (cs : DigitalIO) : nat :=
  match cs with
  | IO_esp8266 d => esp8266._pin d
  | IO_esp32 d => esp32._pin d
  | IO_digi_io d => digi_io._pin d
  end.

(** [cs.switch_to_output(value=v)] *)
Definition io_switch_to_output (cs : DigitalIO) (v : bool) : M unit :=
  match cs with
  | IO_esp8266 d => esp8266.switch_to_output d None v
  | IO_esp32 d => esp32.switch_to_output d v
  | IO_digi_io d => digi_io.switch_to_output d v
  end.

(** [cs.value = v], through the property setter of the wrapper *)
Definition io_set_value (cs : DigitalIO) (v : bool) : M unit :=
  match cs with
  | IO_esp8266 d => esp8266.set_value d v
  | IO_esp32 d => esp32.set_value d v
  | IO_digi_io d => digi_io.set_value d v
  end.

(** ** ubus_device.py: SPIDevice *)

Module ubus_device.

Record SPIDevice : Type := mkSPIDevice {
  baudrate : Z;
  polarity : Z;
  phase : Z;
  chip_select : option DigitalIO
}.

(** [__init__(self, spi, *, chip_select=None, baudrate=100000,
    polarity=0, phase=0)] *)
Definition __init__ (chip_select : option DigitalIO)
           (baudrate polarity phase : Z) : M SPIDevice :=
  SPI.deinit ;;
  let self := mkSPIDevice baudrate polarity phase chip_select in
  match chip_select with
  | Some cs => io_switch_to_output cs true
  | None => mret tt
  end ;;
  mret self.

Definition frequency (self : SPIDevice) : Z := baudrate self.

Definition __enter__ (self : SPIDevice) : M unit :=
  SPI.init (baudrate self) (polarity self) (phase self) ;;
  match chip_select self with
  | Some cs => io_set_value cs false
  | None => mret tt
  end.

Definition __exit__ (self : SPIDevice) (exc : option exn) : M bool :=
  match chip_select self with
  | Some cs => io_set_value cs true
  | None => mret tt
  end ;;
  SPI.deinit ;;
  mret false.

End ubus_device.

(** ** bus_device.py: SPIDevice *)

Module bus_device.

(** What a caller can hand in as [chip_select]: a [machine.Pin], as the
    docstring asks, or one of the [DigitalInOut] wrappers, which have a
    [value] property but no [init] method. *)
Inductive select_obj : Type :=
| NativePin (p : nat)
| Wrapper (d : DigitalIO).

Record SPIDevice : Type := mkSPIDevice {
  baudrate : Z;
  polarity : Z;
  phase : Z;
  chip_select : option select_obj
}.

(** [chip_select.init(mode=Pin.OUT, value=True)] *)
Definition select_init (cs : select_obj) : M unit :=
  match cs with
  | NativePin p => Pin.init p OUT None (Some true)
  | Wrapper _ =>
      raise (AttributeError "'DigitalInOut' object has no attribute 'init'")
  end.

(** [chip_select.value = v] *)
Definition select_store_value (cs : select_obj) (v : bool) : M unit :=
  match cs with
  | NativePin p => Pin.store_attr_value p v
  | Wrapper d => io_set_value d v
  end.

(** [__init__(self, spi, chip_select=None, *, baudrate=100000,
    polarity=0, phase=0)] *)
Definition __init__ (chip_select : option select_obj)
           (baudrate polarity phase : Z) : M SPIDevice :=
  SPI.deinit ;;
  let self := mkSPIDevice baudrate polarity phase chip_select in
  match chip_select with
  | Some cs => select_init cs
  | None => mret tt
  end ;;
  mret self.

Definition __enter__ (self : SPIDevice) : M unit :=
  SPI.init (baudrate self) (polarity self) (phase self) ;;
  match chip_select self with
  | Some cs => select_store_value cs false
  | None => mret tt
  end.

Definition __exit__ (self : SPIDevice) (exc : option exn) : M bool :=
  match chip_select self with
  | Some cs => select_store_value cs true
  | None => mret tt
  end ;;
  SPI.deinit ;;
  mret false.

End bus_device.

(** ** Buffers: [len], slicing and in-place stores *)

(** [slice.indices]: a negative index counts from the end, and the
    result is clamped to [0, len]. *)
Definition slice_index (len i : Z) : Z :=
  Z.max 0 (Z.min len (if i <? 0 then i + len else i)).

(** first position and number of items of [seq[start:end]] *)
Definition slice_bounds (len : nat) (start end_ : Z) : nat * nat :=
  let s := slice_index (Z.of_nat len) start in
  let e := slice_index (Z.of_nat len) end_ in
  (Z.to_nat s, Z.to_nat (e - s)).

Definition py_slice {A} (l : list A) (start end_ : Z) : list A :=
  let '(s, n) := slice_bounds (length l) start end_ in
  take n (drop s l).

Definition py_len (o : pyobj) : nat :=
  match o with
  | Bytearray d => length d
  | Memoryview _ _ n => n
  end.

(** the bytes an object designates *)
Definition contents (h : gmap nat pyobj) (o : pyobj) : list Z :=
  match o with
  | Bytearray d => d
  | Memoryview b off n =>
      match h !! b with
      | Some (Bytearray d) => take n (drop off d)
      | _ => []
      end
  end.

Definition splice (d : list Z) (off : nat) (bytes : list Z) : list Z :=
  take off d ++ bytes ++ drop (off + length bytes) d.

Definition deref (l : nat) : M pyobj :=
  fun w => match heap w !! l with
           | Some o => (Return o, w)
           | None => (Raise (TypeError "object with buffer protocol required"), w)
           end.

Definition alloc (o : pyobj) : M nat :=
  fun w => let l := fresh (dom (heap w)) in
           (Return l, set_heap (insert l o) w).

(** [len(buf)] *)
Definition len (buf : nat) : M Z :=
  o ← deref buf; mret (Z.of_nat (py_len o)).

(** [buf[start:end]]: a new object; a copy of the items for a
    bytearray, a narrower window for a memoryview. *)
Definition getitem_slice (buf : nat) (start end_ : Z) : M nat :=
  o ← deref buf;
  match o with
  | Bytearray d => alloc (Bytearray (py_slice d start end_))
  | Memoryview b off n =>
      let '(s, k) := slice_bounds n start end_ in
      alloc (Memoryview b (off + s) k)
  end.

(** the platform fills the object it was given *)
Definition store_bytes (l : nat) (bytes : list Z) : M unit :=
  o ← deref l;
  match o with
  | Bytearray d => modify (set_heap (insert l (Bytearray (splice d 0 bytes))))
  | Memoryview b off _ =>
      o' ← deref b;
      match o' with
      | Bytearray d => modify (set_heap (insert b (Bytearray (splice d off bytes))))
      | Memoryview _ _ _ => raise (TypeError "object with buffer protocol required")
      end
  end.

(** ** machine.I2C *)

Module I2C.

(** every call on the bus is answered by the next entry of the fault
    plan: an acknowledge, or the error the controller reports *)
Definition answer : M unit :=
  fun w => let w' := set_faults (tail (faults w)) w in
           match head (faults w) with
           | Some (Some e) => (Raise e, w')
           | _ => (Return tt, w')
           end.

Definition take_rx (n : nat) : M (list Z) :=
  fun w => (Return (take n (rx w ++ repeat 255 n)), set_rx (drop n (rx w)) w).

(** [I2C(scl=.., sda=.., frequency=..)]: the object built is stood for
    by the keyword arguments it was built with; the model gives bus
    objects no identity of their own and the constructor no effect on
    the wire. *)
Definition new (scl sda : nat) (frequency : option Z) : M I2CBus :=
  mret (I2C_new scl sda frequency).

Definition scan (bus : I2CBus) : M (list Z) :=
  modify (emit (EvI2CScan bus)) ;; answer ;; gets wire.

Definition readfrom_into (bus : I2CBus) (addr : Z) (buf : nat)
           (stop : bool) : M unit :=
  o ← deref buf;
  modify (emit (EvI2CReadfromInto bus addr (py_len o) stop)) ;;
  answer ;;
  bytes ← take_rx (py_len o);
  store_bytes buf bytes.

Definition writeto (bus : I2CBus) (addr : Z) (buf : nat)
           (stop : bool) : M unit :=
  o ← deref buf;
  data ← gets (fun w => contents (heap w) o);
  modify (emit (EvI2CWriteto bus addr data stop)) ;;
  answer.

End I2C.

(** ** ubus_device.py: I2CDevice *)

(** ["%x" % z] *)
Definition format_x (z : Z) : string :=
  match z with
  | Z0 => "0"
  | Zpos p => HexString.Raw.of_pos p ""
  | Zneg p => "-" ++ HexString.Raw.of_pos p ""
  end.

Module I2CDevice.

Record t : Type := mk {
  i2c : I2CBus;
  sda : option nat;
  scl : option nat;
  freq : option Z;
  device_address : Z
}.

Definition with_i2c (bus : I2CBus) (self : t) : t :=
  mk bus (sda self) (scl self) (freq self) (device_address self).

(** [__probe_for_device]: the loop over the scan result, returning at
    the first match *)
Fixpoint probe_loop (addrs : list Z) (device_address : Z) : bool :=
  match addrs with
  | [] => false
  | addr :: rest =>
      if Z.eqb addr device_address then true
      else probe_loop rest device_address
  end.

Definition __probe_for_device (self : t) : M bool :=
  addrs ← I2C.scan (i2c self);
  mret (probe_loop addrs (device_address self)).

(** [__init__(self, i2c, address, probe=True, scl=None, sda=None,
    frequency=None)]; the tuple assignment is
    [self.sda, self.scl = (scl, sda)]. *)
Definition __init__ (i2c : I2CBus) (address : Z) (probe : bool)
           (scl sda : option nat) (frequency : option Z) : M t :=
  let self := {| i2c := i2c; sda := scl; scl := sda; freq := frequency;
                 device_address := address |} in
  (if probe then
     found ← __probe_for_device self;
     if negb found
     then raise (ValueError ("No I2C device at address: "
                               ++ format_x (device_address self)))
     else mret tt
   else mret tt) ;;
  mret self.

(** [readinto(self, buf, *, start=0, end=None, stop=True)] *)
Definition readinto (self : t) (buf : nat) (start : Z) (end_ : option Z)
           (stop : bool) : M unit :=
  e ← match end_ with None => len buf | Some e => mret e end;
  view ← getitem_slice buf start e;
  I2C.readfrom_into (i2c self) (device_address self) view stop.

(** [write(self, buf, *, start=0, end=None, stop=True)] *)
Definition write (self : t) (buf : nat) (start : Z) (end_ : option Z)
           (stop : bool) : M unit :=
  e ← match end_ with None => len buf | Some e => mret e end;
  view ← getitem_slice buf start e;
  I2C.writeto (i2c self) (device_address self) view stop.

(** [write_then_readinto(self, out_buffer, in_buffer, *, out_start=0,
    out_end=None, in_start=0, in_end=None)] *)
Definition write_then_readinto (self : t) (out_buffer in_buffer : nat)
           (out_start : Z) (out_end : option Z)
           (in_start : Z) (in_end : option Z) : M unit :=
  oe ← match out_end with None => len out_buffer | Some e => mret e end;
  ie ← match in_end with None => len in_buffer | Some e => mret e end;
  write self out_buffer out_start (Some oe) false ;;
  readinto self in_buffer in_start (Some ie) true.

(** [__enter__] returns [self], whose [i2c] attribute it may have
    replaced. *)
Definition __enter__ (self : t) : M t :=
  match scl self, sda self with
  | Some c, Some d =>
      match freq self with
      | Some f => bus ← I2C.new c d (Some f); mret (with_i2c bus self)
      | None => bus ← I2C.new c d None; mret (with_i2c bus self)
      end
  | _, _ => mret self
  end.

Definition __exit__ (self : t) (exc : option exn) : M bool := mret false.

End I2CDevice.

(** ** pwm.py *)

Module pwm.

(** The float type of the interpreter: single precision on the
    MicroPython ports for the ESP chips, double precision elsewhere. *)
Inductive float_format : Type := Binary32 | Binary64.

Definition prec (fmt : float_format) : Z :=
  match fmt with Binary32 => 24 | Binary64 => 53 end.

Definition emax (fmt : float_format) : Z :=
  match fmt with Binary32 => 128 | Binary64 => 1024 end.

(** [float(z)], rounded to nearest even *)
Definition float_of_int (fmt : float_format) (z : Z) : spec_float :=
  binary_normalize (prec fmt) (emax fmt) z 0 false.

(** [x / y] on floats *)
Definition truediv (fmt : float_format) (x y : spec_float) : spec_float :=
  SFdiv (prec fmt) (emax fmt) x y.

(** [int(x)]: truncation towards zero *)
Definition int_of_float (x : spec_float) : outcome Z :=
  match x with
  | S754_zero _ => Return 0
  | S754_finite s m e =>
      let mag := match e with
                 | Zneg k => Z.shiftr (Zpos m) (Zpos k)
                 | _ => Z.shiftl (Zpos m) e
                 end in
      Return (if s then - mag else mag)
  | S754_infinity _ => Raise (OverflowError "cannot convert float infinity to integer")
  | S754_nan => Raise (ValueError "cannot convert float NaN to integer")
  end.

(** the literal [655.35] *)
Definition lit_655_35 (fmt : float_format) : spec_float :=
  truediv fmt (float_of_int fmt 65535) (float_of_int fmt 100).

(** calls received by the object behind [self._pin]: a [machine.PWM]
    when [MICROPY], an [RPi.GPIO.PWM] otherwise *)
Inductive pin_call : Type :=
| PWM_duty (d : Z)
| GPIO_ChangeDutyCycle (dc : spec_float).

Record PWMOut : Type := mkPWMOut {
  _pin_number : Z;
  _pin : list pin_call;
  _frequency : Z;
  _duty_cycle : Z
}.

(** the [duty_cycle] property *)
Definition duty_cycle (self : PWMOut) : Z := _duty_cycle self.

(** its setter, for an [int] argument *)
Definition set_duty_cycle (MICROPY : bool) (fmt : float_format)
           (self : PWMOut) (val : Z) : outcome PWMOut :=
  let val := Z.max 0 (Z.min 65535 val) in
  if MICROPY then
    match int_of_float (truediv fmt (float_of_int fmt (val * 1023))
                                    (float_of_int fmt 65535)) with
    | Return d =>
        Return (mkPWMOut (_pin_number self) (_pin self ++ [PWM_duty d])
                         (_frequency self) val)
    | Raise e => Raise e
    end
  else
    Return (mkPWMOut (_pin_number self)
              (_pin self ++ [GPIO_ChangeDutyCycle
                               (truediv fmt (float_of_int fmt val)
                                            (lit_655_35 fmt))])
              (_frequency self) val).

End pwm.

(** ** pwm.py: construction *)

Module PWMOut.

Import pwm.

(** calls the constructor makes on the platform *)
Inductive call : Type :=
| GPIO_cleanup (n : Z)
| GPIO_setup_OUT (n : Z)
| GPIO_PWM (n : Z) (freq : Z)
| GPIO_start (dc : spec_float)
| machine_PWM (pin : Z) (freq : Z) (duty : Z).

(** [platform.startswith(p)] *)
Definition startswith (p platform : string) : bool := String.prefix p platform.

Definition esp8266_range : string :=
  "esp8266 only allows a frequency that ranges 1Hz to 1kHz".

Definition esp32_range : string :=
  "esp32 only allows a frequency that ranges 1Hz to 40MHz".

(** the conversion of the [int] operand of [duty_cycle / 655.35], which
    raises when the integer is too large for a float *)
Definition float_of_int_checked (fmt : float_format) (z : Z)
  : outcome spec_float :=
  match float_of_int fmt z with
  | S754_infinity _ => Raise (OverflowError "int too large to convert to float")
  | x => Return x
  end.

(** [__init__(self, pin, freq=500, duty_cycle=0)], for an [int] pin
    (for which [int(repr(pin))] is the pin) and [int] arguments; the
    tests read [A and B or C], that is [(A and B) or C].  With
    [MICROPY] the quotient [duty_cycle * 1023 / 65535] is that of
    MicroPython, the interpreter this branch runs on: both operands
    are converted to float, then divided.  The result, when the
    constructor returns, is the object with the calls made on the
    platform. *)
Definition __init__ (MICROPY : bool) (platform : string) (fmt : float_format)
           (pin freq duty_cycle : Z) : outcome (PWMOut * list call) :=
  if MICROPY then
    if startswith "esp82" platform && (freq <? 1) || (1000 <? freq)
    then Raise (ValueError esp8266_range)
    else if startswith "esp32" platform && (freq <? 1) || (40000000 <? freq)
    then Raise (ValueError esp32_range)
    else
      match int_of_float (truediv fmt (float_of_int fmt (duty_cycle * 1023))
                                      (float_of_int fmt 65535)) with
      | Return d =>
          Return (mkPWMOut pin [] freq duty_cycle, [machine_PWM pin freq d])
      | Raise e => Raise e
      end
  else
    match float_of_int_checked fmt duty_cycle with
    | Return x =>
        Return (mkPWMOut pin [] freq duty_cycle,
                [GPIO_cleanup pin; GPIO_setup_OUT pin; GPIO_PWM pin freq;
                 GPIO_start (truediv fmt x (lit_655_35 fmt))])
    | Raise e => Raise e
    end.

End PWMOut.

(** ** userial.py *)

Module userial.

(** calls received by the [machine.UART] the class derives from *)
Inductive uart_call : Type :=
| UART_new (tx rx : nat) (baudrate bits : Z) (parity : option Z)
           (stop timeout rxbuf : Z)
| UART_init_baudrate (val : Z)
| UART_any.

Record USART : Type := mkUSART {
  _baudrate : Z;
  base : list uart_call
}.

(** [__init__(self, tx, rx, *, baudrate=9600, bits=8, parity=None,
    stop=1, timeout=1, receiver_buffer_size=64)] *)
Definition __init__ (tx rx : nat) (baudrate bits : Z) (parity : option Z)
           (stop timeout receiver_buffer_size : Z) : USART :=
  mkUSART baudrate
    [UART_new tx rx baudrate bits parity stop timeout receiver_buffer_size].

(** the [baudrate] property *)
Definition baudrate (self : USART) : Z := _baudrate self.

(** its setter: [super().init(baudrate=val)] *)
Definition set_baudrate (self : USART) (val : Z) : USART :=
  mkUSART (_baudrate self) (base self ++ [UART_init_baudrate val]).

(** the [in_waiting] property: [self.any()], answered by the port with
    the number of characters it holds *)
Definition in_waiting (self : USART) (held : Z) : Z * USART :=
  (held, mkUSART (_baudrate self) (base self ++ [UART_any])).

(** the rate the port was last told to run at *)
Fixpoint line_rate (calls : list uart_call) (rate : Z) : Z :=
  match calls with
  | [] => rate
  | UART_new _ _ b _ _ _ _ _ :: rest => line_rate rest b
  | UART_init_baudrate b :: rest => line_rate rest b
  | UART_any :: rest => line_rate rest rate
  end.

End userial.

(** * Properties *)

(** A board just after reset: nothing configured, nothing logged. *)
Definition boot (policy : setattr_policy) : World :=
  mkWorld ∅ None ∅ [] [] [] policy [].

Definition level (p : nat) (w : World) : bool := hw_level (Pin.state p w).
Definition mode (p : nat) (w : World) : pin_mode := hw_mode (Pin.state p w).

Ltac unfold_monad :=
  unfold mbind, mret, M_bind, M_ret, bind, ret, raise, modify, gets in *.

Ltac unfold_pin :=
  unfold io_set_value, io_switch_to_output,
    esp8266.set_value, esp32.set_value, digi_io.set_value,
    esp8266.switch_to_output, esp32.switch_to_output, digi_io.switch_to_output,
    Pin.set_value, Pin.init, Pin.store_attr_value, SPI.init, SPI.deinit in *.

(** ** Pins *)

Lemma state_emit p e w : Pin.state p (emit e w) = Pin.state p w.
Proof. reflexivity. Qed.

Lemma state_set_spi p c w : Pin.state p (set_spi c w) = Pin.state p w.
Proof. reflexivity. Qed.

Lemma state_insert_eq p hw w :
  Pin.state p (set_pins (insert p hw) w) = hw.
Proof. unfold Pin.state; simpl. by rewrite lookup_insert_eq. Qed.

Lemma state_insert_ne p q hw w :
  p ≠ q -> Pin.state q (set_pins (insert p hw) w) = Pin.state q w.
Proof. intros H. unfold Pin.state; simpl. by rewrite lookup_insert_ne. Qed.

(** The three wrappers reach the same two [machine.Pin] calls. *)
Lemma io_set_value_run cs v w :
  io_set_value cs v w
  = (Return tt,
     emit (EvPinValue (io_pin cs) v)
       (set_pins (insert (io_pin cs)
          (mkPinHW (mode (io_pin cs) w) (hw_pull (Pin.state (io_pin cs) w)) v)) w)).
Proof. destruct cs; reflexivity. Qed.

Lemma io_switch_to_output_run cs v w :
  io_switch_to_output cs v w
  = (Return tt,
     emit (EvPinInit (io_pin cs) OUT None (Some v))
       (set_pins (insert (io_pin cs)
          (mkPinHW OUT (hw_pull (Pin.state (io_pin cs) w)) v)) w)).
Proof. destruct cs; reflexivity. Qed.

(** ** The SPI guard of ubus_device.py *)

Section UbusSPI.

Import ubus_device.

Variable self : SPIDevice.

(** the world [__enter__] leaves *)
Definition acquired (w : World) : World := snd (__enter__ self w).

(** the world [__exit__] leaves *)
Definition released (w : World) : World := snd (__exit__ self None w).

Lemma enter_returns w : __enter__ self w = (Return tt, acquired w).
Proof.
  unfold acquired, __enter__. unfold_monad. unfold SPI.init. unfold_monad.
  destruct (chip_select self) as [cs|]; [|reflexivity].
  by rewrite io_set_value_run.
Qed.

Lemma exit_returns exc w : __exit__ self exc w = (Return false, released w).
Proof.
  unfold released, __exit__. unfold_monad. unfold SPI.deinit. unfold_monad.
  destruct (chip_select self) as [cs|]; [|reflexivity].
  by rewrite io_set_value_run.
Qed.

Definition select_events (v : bool) : list event :=
  match chip_select self with
  | Some cs => [EvPinValue (io_pin cs) v]
  | None => []
  end.

Lemma acquired_log w :
  log (acquired w)
  = log w ++ EvSpiInit (baudrate self) (polarity self) (phase self)
             :: select_events false.
Proof.
  unfold acquired, __enter__, select_events. unfold_monad.
  unfold SPI.init. unfold_monad.
  destruct (chip_select self) as [cs|]; simpl.
  - rewrite io_set_value_run; simpl. by rewrite <- app_assoc.
  - reflexivity.
Qed.


Lemma acquired_level cs w :
  chip_select self = Some cs -> level (io_pin cs) (acquired w) = false.
Proof.
  intros Hcs. unfold acquired, __enter__. unfold_monad.
  unfold SPI.init. unfold_monad. rewrite Hcs, io_set_value_run; simpl.
  unfold level. by rewrite state_emit, state_insert_eq.
Qed.

Lemma released_log w :
  log (released w) = log w ++ select_events true ++ [EvSpiDeinit].
Proof.
  unfold released, __exit__, select_events. unfold_monad.
  unfold SPI.deinit. unfold_monad.
  destruct (chip_select self) as [cs|]; simpl.
  - rewrite io_set_value_run; simpl. by rewrite <- app_assoc.
  - reflexivity.
Qed.

Lemma released_spi w : spi (released w) = None.
Proof.
  unfold released, __exit__. unfold_monad. unfold SPI.deinit. unfold_monad.
  destruct (chip_select self) as [cs|]; simpl; [|reflexivity].
  by rewrite io_set_value_run.
Qed.

Lemma released_level cs w :
  chip_select self = Some cs -> level (io_pin cs) (released w) = true.
Proof.
  intros Hcs. unfold released, __exit__. unfold_monad.
  unfold SPI.deinit. unfold_monad. rewrite Hcs, io_set_value_run; simpl.
  unfold level. by rewrite state_emit, state_set_spi, state_emit, state_insert_eq.
Qed.

(** The [with] statement on this guard, by the outcome of its body. *)
Lemma with_run (body : unit -> M unit) w :
  with_ (__enter__ self) (__exit__ self) body w
  = match body tt (acquired w) with
    | (Return _, w2) => (Return tt, released w2)
    | (Raise e, w2) => (Raise e, released w2)
    end.
Proof.
  unfold with_. rewrite enter_returns.
  destruct (body tt (acquired w)) as [[?|e] w2]; by rewrite exit_returns.
Qed.

End UbusSPI.

(** Construction: the bus is deinitialised and the select line is an
    output at its inactive level. *)
Lemma ubus_init_run cs b pol ph w :
  exists w',
    ubus_device.__init__ cs b pol ph w
    = (Return (ubus_device.mkSPIDevice b pol ph cs), w')
    /\ spi w' = None
    /\ log w' = log w ++ EvSpiDeinit ::
         match cs with
         | Some c => [EvPinInit (io_pin c) OUT None (Some true)]
         | None => []
         end
    /\ (forall c, cs = Some c ->
          level (io_pin c) w' = true /\ mode (io_pin c) w' = OUT).
Proof.
  unfold ubus_device.__init__. unfold_monad. unfold SPI.deinit. unfold_monad.
  destruct cs as [c|]; simpl.
  - rewrite io_switch_to_output_run. eexists; split; [reflexivity|]. simpl.
    split; [reflexivity|]. split; [by rewrite <- app_assoc|].
    intros c' [= <-]. unfold level, mode.
    by rewrite state_emit, state_insert_eq.
  - eexists; split; [reflexivity|]. simpl. repeat split; try done.
Qed.

(** On the guard of ubus_device.py the select line is low exactly while
    the body of the [with] statement runs: high after construction, low
    when the body starts, high again when the statement is left, whether
    the body returned or raised. *)
Lemma ubus_select_line_discipline cs b pol ph (body : unit -> M unit) w :
  exists self w0,
    ubus_device.__init__ (Some cs) b pol ph w = (Return self, w0)
    /\ level (io_pin cs) w0 = true
    /\ mode (io_pin cs) w0 = OUT
    /\ level (io_pin cs) (acquired self w0) = false
    /\ level (io_pin cs)
         (snd (with_ (ubus_device.__enter__ self) (ubus_device.__exit__ self)
                 body w0)) = true.
Proof.
  destruct (ubus_init_run (Some cs) b pol ph w) as (w0 & Hrun & _ & _ & Hcs).
  destruct (Hcs cs eq_refl) as [Hl Hm].
  eexists _, w0. split; [exact Hrun|]. repeat split; try done.
  - by apply acquired_level.
  - rewrite with_run.
    destruct (body tt _) as [[?|e] w2]; simpl; by apply released_level.
Qed.

(** ** The SPI guard of bus_device.py *)

Section BusSPI.

Import bus_device.

Variable self : SPIDevice.

(** On a [machine.Pin] neither [__enter__] nor [__exit__] changes the
    state of any pin: the two assignments to [chip_select.value] never
    reach [Pin.value(..)]. *)
Lemma bus_enter_pins p w :
  chip_select self = Some (NativePin p) ->
  pins (snd (__enter__ self w)) = pins w.
Proof.
  intros Hcs. unfold __enter__. unfold_monad. unfold_pin. unfold_monad.
  rewrite Hcs; simpl. unfold Pin.store_attr_value; simpl.
  by destruct (native_setattr w).
Qed.

Lemma bus_exit_pins p exc w :
  chip_select self = Some (NativePin p) ->
  pins (snd (__exit__ self exc w)) = pins w.
Proof.
  intros Hcs. unfold __exit__. unfold_monad. unfold_pin. unfold_monad.
  rewrite Hcs; simpl. unfold Pin.store_attr_value; simpl.
  by destruct (native_setattr w).
Qed.



End BusSPI.

(** Handed a [DigitalInOut] wrapper, the guard of bus_device.py cannot
    be built. *)
Lemma bus_init_wrapper d b pol ph w :
  fst (bus_device.__init__ (Some (bus_device.Wrapper d)) b pol ph w)
  = Raise (AttributeError "'DigitalInOut' object has no attribute 'init'").
Proof. reflexivity. Qed.

(** C1 (bus_device.py).  A guard of bus_device.py built on
    [machine.Pin] 5 of a freshly booted board leaves the select line
    high and in output mode, as it should; but acquiring it does not
    drive the line low.  [__enter__] performs
    [self.chip_select.value = False] on the pin, an attribute store and
    not the call [value(False)], so under either treatment of that store
    the pin still reads high after the acquisition, the log holds no
    write to the pin, and where the runtime refuses the store the
    acquisition itself fails with [AttributeError] after the bus was
    configured. *)
Theorem C1_bus_device_select_line_not_asserted :
  forall policy : setattr_policy,
    exists self w0 r w1,
      bus_device.__init__ (Some (bus_device.NativePin 5)) 100000 0 0
        (boot policy)
      = (Return self, w0)
      /\ level 5 w0 = true /\ mode 5 w0 = OUT
      /\ bus_device.__enter__ self w0 = (r, w1)
      /\ level 5 w1 = true
      /\ log w1 = [EvSpiDeinit; EvPinInit 5 OUT None (Some true);
                   EvSpiInit 100000 0 0]
      /\ (policy = Refuse ->
          r = Raise (AttributeError "'Pin' object has no attribute 'value'")).
Proof.
  intros policy.
  destruct policy; eexists _, _, _, _;
    (split; [lazy; reflexivity|]);
    (split; [lazy; reflexivity|]);
    (split; [lazy; reflexivity|]);
    (split; [lazy; reflexivity|]);
    (split; [lazy; reflexivity|]);
    (split; [lazy; reflexivity|]);
    first [ reflexivity | discriminate ].
Qed.

(** ** Repeated acquisitions *)









(** ** Buffers *)

Definition fresh_loc (w : World) : nat := fresh (dom (heap w)).

Lemma fresh_loc_None w : heap w !! fresh_loc w = None.
Proof. apply not_elem_of_dom. unfold fresh_loc. apply (is_fresh (dom (heap w))). Qed.

Lemma fresh_loc_ne w l o : heap w !! l = Some o -> fresh_loc w ≠ l.
Proof. intros H <-. by rewrite fresh_loc_None in H. Qed.

(** the object [buf[start:end]] evaluates to *)
Definition slice_obj (o : pyobj) (start end_ : Z) : pyobj :=
  match o with
  | Bytearray d => Bytearray (py_slice d start end_)
  | Memoryview b off n =>
      let '(s, k) := slice_bounds n start end_ in Memoryview b (off + s) k
  end.

Definition end_or_len (o : pyobj) (end_ : option Z) : Z :=
  match end_ with
  | None => Z.of_nat (py_len o)
  | Some e => e
  end.

(** the world once [buf[start:end]] has been evaluated *)
Definition sliced (o : pyobj) (start : Z) (end_ : option Z) (w : World) : World :=
  set_heap (insert (fresh_loc w) (slice_obj o start (end_or_len o end_))) w.

Lemma getitem_slice_run buf o start e w :
  heap w !! buf = Some o ->
  getitem_slice buf start e w
  = (Return (fresh_loc w),
     set_heap (insert (fresh_loc w) (slice_obj o start e)) w).
Proof.
  intros H. unfold getitem_slice, deref. unfold_monad. rewrite H.
  destruct o as [d|b off n]; simpl; [reflexivity|].
  by destruct (slice_bounds n start e).
Qed.

Lemma end_run buf o end_ w :
  heap w !! buf = Some o ->
  match end_ with None => len buf | Some e => mret e end w
  = (Return (end_or_len o end_), w).
Proof.
  intros H. destruct end_; [reflexivity|].
  unfold len, deref. unfold_monad. by rewrite H.
Qed.

Lemma sliced_lookup_view o start end_ w :
  heap (sliced o start end_ w) !! fresh_loc w
  = Some (slice_obj o start (end_or_len o end_)).
Proof. unfold sliced; simpl. by rewrite lookup_insert_eq. Qed.

Lemma sliced_lookup_old o start end_ w l o' :
  heap w !! l = Some o' -> heap (sliced o start end_ w) !! l = Some o'.
Proof.
  intros H. unfold sliced; simpl.
  rewrite lookup_insert_ne; [done|]. by eapply fresh_loc_ne.
Qed.

(** ** Transfers of the I2C guard on a bytearray *)

Section Transfers.

Variable self : I2CDevice.t.

Let bus := I2CDevice.i2c self.
Let addr := I2CDevice.device_address self.

(** [write] makes one [writeto] call, carrying the items of the slice. *)
Lemma write_run buf d start end_ stop w :
  heap w !! buf = Some (Bytearray d) ->
  I2CDevice.write self buf start end_ stop w
  = I2C.answer
      (emit (EvI2CWriteto bus addr
               (py_slice d start (end_or_len (Bytearray d) end_)) stop)
            (sliced (Bytearray d) start end_ w)).
Proof.
  intros H. unfold I2CDevice.write.
  unfold mbind at 1, M_bind, bind. rewrite (end_run _ _ _ _ H).
  unfold mbind at 1, M_bind, bind. rewrite (getitem_slice_run _ _ _ _ _ H).
  unfold I2C.writeto, deref. unfold_monad. simpl.
  by rewrite lookup_insert_eq.
Qed.

(** the world after the bytes of a read were stored in the view *)
Definition filled (view : list Z) (l : nat) (w : World) : World :=
  set_heap (insert l (Bytearray
              (splice view 0 (take (length view)
                                (rx w ++ repeat 255 (length view))))))
           (set_rx (drop (length view) (rx w)) w).

(** [readinto] makes one [readfrom_into] call, on the sliced object. *)
Lemma readinto_run buf d start end_ stop w :
  heap w !! buf = Some (Bytearray d) ->
  let view := py_slice d start (end_or_len (Bytearray d) end_) in
  I2CDevice.readinto self buf start end_ stop w
  = match I2C.answer
            (emit (EvI2CReadfromInto bus addr (length view) stop)
                  (sliced (Bytearray d) start end_ w)) with
    | (Return _, w2) => (Return tt, filled view (fresh_loc w) w2)
    | (Raise e, w2) => (Raise e, w2)
    end.
Proof.
  intros H view. unfold I2CDevice.readinto.
  unfold mbind at 1, M_bind, bind. rewrite (end_run _ _ _ _ H).
  unfold mbind at 1, M_bind, bind. rewrite (getitem_slice_run _ _ _ _ _ H).
  unfold I2C.readfrom_into, deref. unfold_monad. simpl.
  rewrite lookup_insert_eq. simpl. fold view.
  unfold I2C.answer; simpl.
  destruct (head (faults w)) as [[e|]|]; try reflexivity;
    unfold store_bytes, deref, I2C.take_rx; unfold_monad; simpl;
    by rewrite lookup_insert_eq.
Qed.

End Transfers.

(** ** Answers of the bus *)

(** the error, if any, with which the [k]-th next bus call is answered *)
Definition fault_at (k : nat) (w : World) : option exn :=
  match faults w !! k with
  | Some (Some e) => Some e
  | _ => None
  end.

(** the world after one answer was consumed *)
Definition answered (w : World) : World := set_faults (tail (faults w)) w.

Lemma answer_run w :
  I2C.answer w
  = match fault_at 0 w with
    | Some e => (Raise e, answered w)
    | None => (Return tt, answered w)
    end.
Proof.
  unfold I2C.answer, fault_at, answered. rewrite <- head_lookup.
  by destruct (head (faults w)) as [[e|]|].
Qed.

Lemma fault_at_answered k w : fault_at k (answered w) = fault_at (S k) w.
Proof. unfold fault_at, answered; simpl. by rewrite lookup_tail. Qed.

Lemma sliced_fault k o start end_ w :
  fault_at k (sliced o start end_ w) = fault_at k w.
Proof. reflexivity. Qed.

(** ** Probing *)

Lemma probe_loop_In addrs a : I2CDevice.probe_loop addrs a = true <-> In a addrs.
Proof.
  induction addrs as [|x rest IH]; simpl.
  - split; [discriminate | tauto].
  - destruct (Z.eqb_spec x a) as [->|Hne].
    + split; auto.
    + rewrite IH. split; [auto | intros [H|H]; [congruence | exact H]].
Qed.

Definition is_scan (e : event) : bool :=
  match e with
  | EvI2CScan _ => true
  | _ => false
  end.

(** the scans found in a log *)
Definition scans (l : list event) : list event := List.filter is_scan l.

Lemma scans_snoc l e : is_scan e = false -> scans (l ++ [e]) = scans l.
Proof.
  intros H. unfold scans. rewrite List.filter_app; simpl. rewrite H.
  apply app_nil_r.
Qed.

Lemma init_probe_run bus address scl sda f w :
  I2CDevice.__init__ bus address true scl sda f w
  = let w' := answered (emit (EvI2CScan bus) w) in
    match fault_at 0 w with
    | Some e => (Raise e, w')
    | None =>
        if I2CDevice.probe_loop (wire w) address
        then (Return (I2CDevice.mk bus scl sda f address), w')
        else (Raise (ValueError ("No I2C device at address: "
                                   ++ format_x address)), w')
    end.
Proof.
  unfold I2CDevice.__init__, I2CDevice.__probe_for_device, I2C.scan.
  unfold_monad. simpl. rewrite answer_run.
  change (fault_at 0 (emit (EvI2CScan bus) w)) with (fault_at 0 w).
  destruct (fault_at 0 w); [reflexivity|]. simpl.
  by destruct (I2CDevice.probe_loop (wire w) address).
Qed.

Lemma init_noprobe_run bus address scl sda f w :
  I2CDevice.__init__ bus address false scl sda f w
  = (Return (I2CDevice.mk bus scl sda f address), w).
Proof. reflexivity. Qed.

Section TransferLogs.

Variable self : I2CDevice.t.

Lemma write_log buf d start end_ stop w :
  heap w !! buf = Some (Bytearray d) ->
  log (snd (I2CDevice.write self buf start end_ stop w))
  = log w ++ [EvI2CWriteto (I2CDevice.i2c self) (I2CDevice.device_address self)
                (py_slice d start (end_or_len (Bytearray d) end_)) stop].
Proof.
  intros H. rewrite (write_run _ _ _ _ _ _ _ H), answer_run.
  by destruct (fault_at 0 _).
Qed.

Lemma readinto_log buf d start end_ stop w :
  heap w !! buf = Some (Bytearray d) ->
  log (snd (I2CDevice.readinto self buf start end_ stop w))
  = log w ++ [EvI2CReadfromInto (I2CDevice.i2c self)
                (I2CDevice.device_address self)
                (length (py_slice d start (end_or_len (Bytearray d) end_)))
                stop].
Proof.
  intros H. rewrite (readinto_run _ _ _ _ _ _ _ H), answer_run.
  by destruct (fault_at 0 _).
Qed.

(** What [readinto] leaves in the heap: the caller's bytearray as it
    was, since the bytes went to the object the slice created. *)
Lemma readinto_heap buf d start end_ stop w :
  heap w !! buf = Some (Bytearray d) ->
  heap (snd (I2CDevice.readinto self buf start end_ stop w)) !! buf
  = Some (Bytearray d).
Proof.
  intros H. rewrite (readinto_run _ _ _ _ _ _ _ H), answer_run.
  destruct (fault_at 0 _); simpl.
  - rewrite lookup_insert_ne; [done | by eapply fresh_loc_ne].
  - rewrite !lookup_insert_ne; [done | by eapply fresh_loc_ne..].
Qed.

Lemma write_heap buf d start end_ stop w l o :
  heap w !! buf = Some (Bytearray d) ->
  heap w !! l = Some o ->
  heap (snd (I2CDevice.write self buf start end_ stop w)) !! l = Some o.
Proof.
  intros H Hl. rewrite (write_run _ _ _ _ _ _ _ H), answer_run.
  destruct (fault_at 0 _); simpl;
    (rewrite lookup_insert_ne; [done | by eapply fresh_loc_ne]).
Qed.

End TransferLogs.

(** ** Computations that do not scan the bus *)

(** [m] only appends to the log, and appends no scan. *)
Definition scan_free {A} (m : M A) : Prop :=
  forall w, exists evs,
    log (snd (m w)) = log w ++ evs /\ scans evs = [].

Lemma scan_free_silent {A} (m : M A) :
  (forall w, log (snd (m w)) = log w) -> scan_free m.
Proof. intros H w. exists []. by rewrite H, app_nil_r. Qed.

Lemma scan_free_bind {A B} (m : M A) (k : A -> M B) :
  scan_free m -> (forall a, scan_free (k a)) -> scan_free (m ≫= k).
Proof.
  intros Hm Hk w. destruct (Hm w) as (evs & Hlog & Hs).
  unfold mbind, M_bind, bind. destruct (m w) as [[a|e] w1]; simpl in *.
  - destruct (Hk a w1) as (evs' & Hlog' & Hs').
    exists (evs ++ evs'). rewrite Hlog', Hlog, <- app_assoc. split; [done|].
    unfold scans in *. by rewrite List.filter_app, Hs, Hs'.
  - by exists evs.
Qed.

Lemma scan_free_ret {A} (a : A) : scan_free (mret a : M A).
Proof. by apply scan_free_silent. Qed.

Lemma scan_free_raise {A} e : scan_free (raise e : M A).
Proof. by apply scan_free_silent. Qed.

Lemma scan_free_emit e : is_scan e = false -> scan_free (modify (emit e)).
Proof.
  intros H w. exists [e]. split; [reflexivity|].
  unfold scans; simpl. by rewrite H.
Qed.

Lemma scan_free_deref l : scan_free (deref l).
Proof.
  apply scan_free_silent. intros w. unfold deref.
  by destruct (heap w !! l).
Qed.

Lemma scan_free_alloc o : scan_free (alloc o).
Proof. by apply scan_free_silent. Qed.

Lemma scan_free_len buf : scan_free (len buf).
Proof.
  apply scan_free_bind; [apply scan_free_deref | intros; apply scan_free_ret].
Qed.

Lemma scan_free_end buf (end_ : option Z) :
  scan_free (match end_ with None => len buf | Some e => mret e end).
Proof. destruct end_; [apply scan_free_ret | apply scan_free_len]. Qed.

Lemma scan_free_getitem_slice buf start e : scan_free (getitem_slice buf start e).
Proof.
  apply scan_free_bind; [apply scan_free_deref|].
  intros [d|b off n]; [apply scan_free_alloc|].
  destruct (slice_bounds n start e). apply scan_free_alloc.
Qed.

Lemma scan_free_store_bytes l bytes : scan_free (store_bytes l bytes).
Proof.
  apply scan_free_bind; [apply scan_free_deref|].
  intros [d|b off n]; [by apply scan_free_silent|].
  apply scan_free_bind; [apply scan_free_deref|].
  intros [d|? ? ?]; [by apply scan_free_silent | apply scan_free_raise].
Qed.

Lemma scan_free_answer : scan_free I2C.answer.
Proof.
  apply scan_free_silent. intros w. unfold I2C.answer.
  by destruct (head (faults w)) as [[e|]|].
Qed.

Lemma scan_free_writeto bus addr buf stop :
  scan_free (I2C.writeto bus addr buf stop).
Proof.
  apply scan_free_bind; [apply scan_free_deref | intros o].
  apply scan_free_bind; [by apply scan_free_silent | intros data].
  apply scan_free_bind; [by apply scan_free_emit | intros _].
  apply scan_free_answer.
Qed.

Lemma scan_free_readfrom_into bus addr buf stop :
  scan_free (I2C.readfrom_into bus addr buf stop).
Proof.
  apply scan_free_bind; [apply scan_free_deref | intros o].
  apply scan_free_bind; [by apply scan_free_emit | intros _].
  apply scan_free_bind; [apply scan_free_answer | intros _].
  apply scan_free_bind; [by apply scan_free_silent | intros bytes].
  apply scan_free_store_bytes.
Qed.

Lemma scan_free_write self buf start end_ stop :
  scan_free (I2CDevice.write self buf start end_ stop).
Proof.
  apply scan_free_bind; [apply scan_free_end | intros e].
  apply scan_free_bind; [apply scan_free_getitem_slice | intros view].
  apply scan_free_writeto.
Qed.

Lemma scan_free_readinto self buf start end_ stop :
  scan_free (I2CDevice.readinto self buf start end_ stop).
Proof.
  apply scan_free_bind; [apply scan_free_end | intros e].
  apply scan_free_bind; [apply scan_free_getitem_slice | intros view].
  apply scan_free_readfrom_into.
Qed.

Lemma scan_free_write_then_readinto self ob ib os oe is_ ie :
  scan_free (I2CDevice.write_then_readinto self ob ib os oe is_ ie).
Proof.
  apply scan_free_bind; [apply scan_free_end | intros e1].
  apply scan_free_bind; [apply scan_free_end | intros e2].
  apply scan_free_bind; [apply scan_free_write | intros _].
  apply scan_free_readinto.
Qed.

(** C2.  When the scan of the bus is answered, building an I2C guard
    with [probe=True] returns a guard exactly when the address is among
    the addresses the scan found, and otherwise raises the
    [ValueError] naming the address; the scan is made once, during
    construction.  No read, write or write-then-read of any guard on any
    buffer scans the bus. *)
Theorem C2_probe_succeeds_iff_address_scanned :
  forall (bus : I2CBus) (address : Z) (scl sda : option nat)
         (f : option Z) (w : World),
    fault_at 0 w = None ->
    (exists r w',
        I2CDevice.__init__ bus address true scl sda f w = (r, w')
        /\ log w' = log w ++ [EvI2CScan bus]
        /\ ((exists self, r = Return self) <-> In address (wire w))
        /\ (~ In address (wire w) ->
            r = Raise (ValueError ("No I2C device at address: "
                                     ++ format_x address))))
    /\ (forall self buf start end_ stop,
          scan_free (I2CDevice.readinto self buf start end_ stop)
          /\ scan_free (I2CDevice.write self buf start end_ stop))
    /\ (forall self ob ib os oe is_ ie,
          scan_free (I2CDevice.write_then_readinto self ob ib os oe is_ ie)).
Proof.
  intros bus address scl sda f w Hok. split; [|split].
  - rewrite init_probe_run, Hok. cbv zeta.
    destruct (I2CDevice.probe_loop (wire w) address) eqn:Hp.
    + apply probe_loop_In in Hp.
      eexists _, _. split; [reflexivity|]. split; [reflexivity|].
      split; [split; eauto | intros Hn; contradiction].
    + assert (Hn : ~ In address (wire w)).
      { intros Hin. apply probe_loop_In in Hin. congruence. }
      eexists _, _. split; [reflexivity|]. split; [reflexivity|].
      split; [|auto]. split; [intros [self [=]] | intros; contradiction].
  - intros. split; [apply scan_free_readinto | apply scan_free_write].
  - intros. apply scan_free_write_then_readinto.
Qed.

(** At the addresses of the example: a bus where only 0x10 answers. *)
Lemma C2_probe_witness :
  fault_at 0 (mkWorld ∅ None ∅ [16] [] [] Refuse []) = None
  /\ I2CDevice.__init__ (I2C_given 0) 16 true None None None
       (mkWorld ∅ None ∅ [16] [] [] Refuse [])
     = (Return (I2CDevice.mk (I2C_given 0) None None None 16),
        mkWorld ∅ None ∅ [16] [] [] Refuse [EvI2CScan (I2C_given 0)])
  /\ fst (I2CDevice.__init__ (I2C_given 0) 32 true None None None
            (mkWorld ∅ None ∅ [16] [] [] Refuse []))
     = Raise (ValueError "No I2C device at address: 20").
Proof.
  pose proof (C2_probe_succeeds_iff_address_scanned (I2C_given 0) 32 None None
                None (mkWorld ∅ None ∅ [16] [] [] Refuse []) eq_refl) as H.
  destruct H as [(r & w' & Hrun & _ & _ & Hraise) _].
  split; [reflexivity|]. split; [reflexivity|].
  rewrite Hrun. simpl. apply Hraise. simpl. intros [H|[]]. discriminate.
Defined.

(** ** Slices *)

Lemma slice_index_in_range n i : 0 <= i <= n -> slice_index n i = i.
Proof. intros H. unfold slice_index. destruct (Z.ltb_spec i 0); lia. Qed.

Lemma py_slice_in_range {A} (l : list A) (start end_ : Z) :
  0 <= start <= end_ -> end_ <= Z.of_nat (length l) ->
  py_slice l start end_
  = take (Z.to_nat (end_ - start)) (drop (Z.to_nat start) l).
Proof.
  intros H1 H2. unfold py_slice, slice_bounds.
  rewrite !slice_index_in_range by lia. reflexivity.
Qed.

Lemma py_slice_length {A} (l : list A) (start end_ : Z) :
  0 <= start <= end_ -> end_ <= Z.of_nat (length l) ->
  Z.of_nat (length (py_slice l start end_)) = end_ - start.
Proof.
  intros H1 H2. rewrite py_slice_in_range by lia.
  rewrite length_take, length_drop. lia.
Qed.

Lemma py_slice_lookup {A} (l : list A) (start end_ : Z) (i : nat) :
  0 <= start <= end_ -> end_ <= Z.of_nat (length l) ->
  (i < Z.to_nat (end_ - start))%nat ->
  py_slice l start end_ !! i = l !! (Z.to_nat start + i)%nat.
Proof.
  intros H1 H2 Hi. rewrite py_slice_in_range by lia.
  rewrite lookup_take_lt by lia. by rewrite lookup_drop.
Qed.

(** C4.  A [write] of a guard on a bytearray makes one [writeto] call
    on the guard's bus at the guard's address, and the bytes it carries
    are the slice [buf[start:end]], with [end] the length of the buffer
    when not given.  For indices within the buffer that is the [end -
    start] items at positions [start], ..., [end - 1]. *)
Theorem C4_write_transmits_the_slice :
  forall (self : I2CDevice.t) (buf : nat) (d : list Z) (start : Z)
         (end_ : option Z) (stop : bool) (w : World),
    heap w !! buf = Some (Bytearray d) ->
    let e := match end_ with None => Z.of_nat (length d) | Some e => e end in
    log (snd (I2CDevice.write self buf start end_ stop w))
    = log w ++ [EvI2CWriteto (I2CDevice.i2c self)
                  (I2CDevice.device_address self) (py_slice d start e) stop]
    /\ (0 <= start <= e -> e <= Z.of_nat (length d) ->
        Z.of_nat (length (py_slice d start e)) = e - start
        /\ forall i, (i < Z.to_nat (e - start))%nat ->
             py_slice d start e !! i = d !! (Z.to_nat start + i)%nat).
Proof.
  intros self buf d start end_ stop w H e. split.
  - rewrite (write_log _ _ _ _ _ _ _ H). by destruct end_.
  - intros H1 H2. split; [by apply py_slice_length|].
    intros i Hi. by apply py_slice_lookup.
Qed.

(** [write(buf, start=2, end=5)] on a buffer of ten bytes sends three. *)
Lemma C4_write_witness :
  log (snd (I2CDevice.write (I2CDevice.mk (I2C_given 0) None None None 16)
              0 2 (Some 5) true
              (mkWorld ∅ None {[ 0%nat := Bytearray [10;11;12;13;14;15;16;17;18;19] ]}
                 [] [] [] Refuse [])))
  = [EvI2CWriteto (I2C_given 0) 16 [12;13;14] true].
Proof.
  pose proof (C4_write_transmits_the_slice
                (I2CDevice.mk (I2C_given 0) None None None 16)
                0 [10;11;12;13;14;15;16;17;18;19] 2 (Some 5) true
                (mkWorld ∅ None {[ 0%nat := Bytearray [10;11;12;13;14;15;16;17;18;19] ]}
                   [] [] [] Refuse []) eq_refl) as [H _].
  exact H.
Defined.

(** C5.  [readinto] on a bytearray of four zero bytes, with a device
    that sends 0x11 0x22 0x33 0x44: the call returns, the four bytes
    were read from the bus, and the caller's buffer (object 0) still
    holds four zeros; the bytes are in object 1, the copy that
    [buf[start:end]] allocated and that nobody else references. *)
Theorem C5_readinto_leaves_the_bytearray_unchanged :
  let w := mkWorld ∅ None {[ 0%nat := Bytearray [0;0;0;0] ]}
             [] [17;34;51;68] [] Refuse [] in
  let self := I2CDevice.mk (I2C_given 0) None None None 16 in
  exists w',
    I2CDevice.readinto self 0 0 None true w = (Return tt, w')
    /\ log w' = [EvI2CReadfromInto (I2C_given 0) 16 4 true]
    /\ rx w' = []
    /\ heap w' !! 0%nat = Some (Bytearray [0;0;0;0])
    /\ heap w' !! 1%nat = Some (Bytearray [17;34;51;68]).
Proof.
  eexists. split; [vm_compute; reflexivity|].
  repeat split; vm_compute; reflexivity.
Qed.

(** Through a memoryview the same call does fill the caller's storage:
    the slice of a memoryview is a window, not a copy. *)
Example readinto_memoryview_fills_storage :
  let w := mkWorld ∅ None
             {[ 0%nat := Bytearray [0;0;0;0]; 1%nat := Memoryview 0 0 4 ]}
             [] [17;34;51;68] [] Refuse [] in
  let self := I2CDevice.mk (I2C_given 0) None None None 16 in
  heap (snd (I2CDevice.readinto self 1 1 (Some 3) true w)) !! 0%nat
  = Some (Bytearray [0;17;34;0]).
Proof. vm_compute; reflexivity. Qed.

(** ** Write, then read *)

Section WriteThenRead.

Variable self : I2CDevice.t.

Lemma write_end_resolved buf d start end_ stop w :
  heap w !! buf = Some (Bytearray d) ->
  I2CDevice.write self buf start (Some (end_or_len (Bytearray d) end_)) stop w
  = I2CDevice.write self buf start end_ stop w.
Proof. intros H. by rewrite !(write_run _ _ _ _ _ _ _ H). Qed.

Lemma readinto_end_resolved buf d start end_ stop w :
  heap w !! buf = Some (Bytearray d) ->
  I2CDevice.readinto self buf start (Some (end_or_len (Bytearray d) end_)) stop w
  = I2CDevice.readinto self buf start end_ stop w.
Proof. intros H. by rewrite !(readinto_run _ _ _ _ _ _ _ H). Qed.

Lemma write_then_readinto_run ob ib dout din os oe is_ ie w :
  heap w !! ob = Some (Bytearray dout) ->
  heap w !! ib = Some (Bytearray din) ->
  I2CDevice.write_then_readinto self ob ib os oe is_ ie w
  = (I2CDevice.write self ob os oe false ≫=
       λ _, I2CDevice.readinto self ib is_ ie true) w.
Proof.
  intros Ho Hi. unfold I2CDevice.write_then_readinto.
  unfold mbind at 1, M_bind, bind. rewrite (end_run _ _ _ _ Ho).
  unfold mbind at 1, M_bind, bind. rewrite (end_run _ _ _ _ Hi).
  unfold mbind, M_bind, bind.
  rewrite (write_end_resolved _ _ _ _ _ _ Ho).
  pose proof (write_heap self ob dout os oe false w ib _ Ho Hi) as Hi'.
  destruct (I2CDevice.write self ob os oe false w) as [[[]|e] w1];
    [|reflexivity].
  apply (readinto_end_resolved _ _ _ _ _ _ Hi').
Qed.

End WriteThenRead.

(** The calls of [write_then_readinto].  On two bytearrays it is a [write] of the
    output range with [stop=False] followed by a [readinto] of the
    input range, each end defaulting to the length of its buffer.  When
    the bus answers both, the bus sees exactly these two calls, one after
    the other, nothing in between: the [writeto] of
    [out_buffer[out_start:out_end]] without stop, then the
    [readfrom_into] of as many bytes as [in_buffer[in_start:in_end]]
    holds.  When the write is refused the read is not attempted. *)
Theorem write_then_readinto_sequence :
  forall (self : I2CDevice.t) (out_buffer in_buffer : nat)
         (dout din : list Z) (out_start : Z) (out_end : option Z)
         (in_start : Z) (in_end : option Z) (w : World),
    heap w !! out_buffer = Some (Bytearray dout) ->
    heap w !! in_buffer = Some (Bytearray din) ->
    let oe := match out_end with None => Z.of_nat (length dout) | Some e => e end in
    let ie := match in_end with None => Z.of_nat (length din) | Some e => e end in
    let wr := EvI2CWriteto (I2CDevice.i2c self) (I2CDevice.device_address self)
                (py_slice dout out_start oe) false in
    let rd := EvI2CReadfromInto (I2CDevice.i2c self)
                (I2CDevice.device_address self)
                (length (py_slice din in_start ie)) true in
    I2CDevice.write_then_readinto self out_buffer in_buffer
      out_start out_end in_start in_end w
    = (I2CDevice.write self out_buffer out_start out_end false ≫=
         λ _, I2CDevice.readinto self in_buffer in_start in_end true) w
    /\ (fault_at 0 w = None -> fault_at 1 w = None ->
        exists w',
          I2CDevice.write_then_readinto self out_buffer in_buffer
            out_start out_end in_start in_end w = (Return tt, w')
          /\ log w' = log w ++ [wr; rd])
    /\ (forall e, fault_at 0 w = Some e ->
        exists w',
          I2CDevice.write_then_readinto self out_buffer in_buffer
            out_start out_end in_start in_end w = (Raise e, w')
          /\ log w' = log w ++ [wr]).
Proof.
  intros self ob ib dout din os oe_ is_ ie_ w Ho Hi oe ie wr rd.
  assert (Hoe : end_or_len (Bytearray dout) oe_ = oe) by by destruct oe_.
  assert (Hie : end_or_len (Bytearray din) ie_ = ie) by by destruct ie_.
  rewrite (write_then_readinto_run _ _ _ _ _ _ _ _ _ _ Ho Hi).
  split; [reflexivity|].
  unfold mbind, M_bind, bind.
  rewrite (write_run _ _ _ _ _ _ _ Ho), answer_run, Hoe. fold wr.
  change (fault_at 0 (emit wr (sliced (Bytearray dout) os oe_ w)))
    with (fault_at 0 w).
  split.
  - intros H0 H1. rewrite H0.
    assert (Hi' : heap (answered (emit wr (sliced (Bytearray dout) os oe_ w)))
                    !! ib = Some (Bytearray din)).
    { apply (sliced_lookup_old _ _ _ _ _ _ Hi). }
    rewrite (readinto_run _ _ _ _ _ _ _ Hi'), answer_run, Hie. fold rd.
    change (fault_at 0 (emit rd ?x)) with (fault_at 0 x).
    rewrite sliced_fault, fault_at_answered.
    change (fault_at 1 (emit wr ?x)) with (fault_at 1 x).
    rewrite sliced_fault, H1.
    eexists. split; [reflexivity|]. simpl. by rewrite <- app_assoc.
  - intros e He. rewrite He. eexists. split; reflexivity.
Qed.

(** One byte 0xAA out, two bytes in: one write without stop, one read. *)
Lemma write_then_readinto_sequence_witness :
  exists w',
    I2CDevice.write_then_readinto (I2CDevice.mk (I2C_given 0) None None None 16)
      0 1 0 None 0 None
      (mkWorld ∅ None {[ 0%nat := Bytearray [170]; 1%nat := Bytearray [0;0] ]}
         [] [] [] Refuse [])
    = (Return tt, w')
    /\ log w' = [EvI2CWriteto (I2C_given 0) 16 [170] false;
                 EvI2CReadfromInto (I2C_given 0) 16 2 true].
Proof.
  set (w := mkWorld ∅ None {[ 0%nat := Bytearray [170]; 1%nat := Bytearray [0;0] ]}
              [] [] [] Refuse []).
  assert (Ho : heap w !! 0%nat = Some (Bytearray [170]))
    by (vm_compute; reflexivity).
  assert (Hi : heap w !! 1%nat = Some (Bytearray [0;0]))
    by (vm_compute; reflexivity).
  destruct (write_then_readinto_sequence
              (I2CDevice.mk (I2C_given 0) None None None 16)
              0 1 [170] [0;0] 0 None 0 None w Ho Hi) as (_ & H & _).
  exact (H eq_refl eq_refl).
Defined.

(** On bytearrays the input buffer is never written: the bytes of the
    read go to the copy that [in_buffer[in_start:in_end]] allocates. *)
Lemma write_then_readinto_in_buffer_unchanged
      (self : I2CDevice.t) (out_buffer in_buffer : nat) (dout din : list Z)
      (out_start : Z) (out_end : option Z) (in_start : Z)
      (in_end : option Z) (w : World) :
  heap w !! out_buffer = Some (Bytearray dout) ->
  heap w !! in_buffer = Some (Bytearray din) ->
  heap (snd (I2CDevice.write_then_readinto self out_buffer in_buffer
               out_start out_end in_start in_end w)) !! in_buffer
  = Some (Bytearray din).
Proof.
  intros Ho Hi.
  rewrite (write_then_readinto_run _ _ _ _ _ _ _ _ _ _ Ho Hi).
  unfold mbind, M_bind, bind.
  pose proof (write_heap self out_buffer dout out_start out_end false w
                in_buffer _ Ho Hi) as Hi'.
  destruct (I2CDevice.write self out_buffer out_start out_end false w)
    as [[[]|e] w1]; simpl in *; [|exact Hi'].
  by apply readinto_heap.
Qed.

(** C3.  [write_then_readinto] with the one byte 0xAA to send and a
    bytearray of two zero bytes to fill, on a device that answers 0x11
    0x22.  The call returns and the bus has seen what it should, the
    [writeto] of 0xAA without stop and then the [readfrom_into] of two
    bytes, the two bytes being taken from the device; but they are not
    in the input buffer (object 1), which still holds two zeros: they
    are in object 3, the copy that [in_buffer[in_start:in_end]]
    allocated.  The read of the combined transaction does not reach the
    caller's buffer. *)
Theorem C3_write_then_readinto_does_not_fill_in_buffer :
  let w := mkWorld ∅ None
             {[ 0%nat := Bytearray [170]; 1%nat := Bytearray [0;0] ]}
             [] [17;34] [] Refuse [] in
  let self := I2CDevice.mk (I2C_given 0) None None None 16 in
  exists w',
    I2CDevice.write_then_readinto self 0 1 0 None 0 None w = (Return tt, w')
    /\ log w' = [EvI2CWriteto (I2C_given 0) 16 [170] false;
                 EvI2CReadfromInto (I2C_given 0) 16 2 true]
    /\ rx w' = []
    /\ heap w' !! 0%nat = Some (Bytearray [170])
    /\ heap w' !! 1%nat = Some (Bytearray [0;0])
    /\ heap w' !! 3%nat = Some (Bytearray [17;34]).
Proof.
  eexists. split; [vm_compute; reflexivity|].
  repeat split; vm_compute; reflexivity.
Qed.

(** ** Acquisition of the I2C guard *)

(** the guard as [__enter__] returns it *)
Definition i2c_acquired (self : I2CDevice.t) : I2CDevice.t :=
  match I2CDevice.scl self, I2CDevice.sda self with
  | Some c, Some d => I2CDevice.with_i2c (I2C_new c d (I2CDevice.freq self)) self
  | _, _ => self
  end.

Lemma i2c_enter_run self w :
  I2CDevice.__enter__ self w = (Return (i2c_acquired self), w).
Proof.
  unfold I2CDevice.__enter__, i2c_acquired.
  destruct (I2CDevice.scl self), (I2CDevice.sda self); try reflexivity.
  by destruct (I2CDevice.freq self).
Qed.

(** C8.  A guard built with [scl=c] and [sda=d] keeps them crossed
    ([self.sda, self.scl = (scl, sda)]), so each acquisition builds the
    bus object with [scl=d] and [sda=c]: the clock line on the pin given
    for data and the data line on the pin given for the clock.  With
    [scl=Pin(5)], [sda=Pin(4)] the bus is built as
    [I2C(scl=Pin(4), sda=Pin(5))].  The frequency is passed on as given,
    and a guard built without pins keeps the bus it was given. *)
Theorem C8_acquisition_builds_the_bus_with_crossed_pins :
  forall (bus : I2CBus) (address : Z) (c d : nat) (f : option Z) (w : World),
    (exists self self',
        I2CDevice.__init__ bus address false (Some c) (Some d) f w
        = (Return self, w)
        /\ I2CDevice.__enter__ self w = (Return self', w)
        /\ I2CDevice.i2c self' = I2C_new d c f)
    /\ (exists self self',
        I2CDevice.__init__ bus address false (Some 5%nat) (Some 4%nat) f w
        = (Return self, w)
        /\ I2CDevice.__enter__ self w = (Return self', w)
        /\ I2CDevice.i2c self' = I2C_new 4 5 f
        /\ I2CDevice.i2c self' <> I2C_new 5 4 f)
    /\ (exists self,
        I2CDevice.__init__ bus address false None None f w = (Return self, w)
        /\ I2CDevice.__enter__ self w = (Return self, w)
        /\ I2CDevice.i2c self = bus).
Proof.
  intros bus address c d f w. split; [|split].
  - eexists _, _. split; [apply init_noprobe_run|].
    rewrite i2c_enter_run. simpl. split; reflexivity.
  - eexists _, _. split; [apply init_noprobe_run|].
    rewrite i2c_enter_run. simpl. repeat split. discriminate.
  - eexists. split; [apply init_noprobe_run|].
    rewrite i2c_enter_run. simpl. split; reflexivity.
Qed.

(** ** Exceptions in the body of a [with] statement *)

Lemma i2c_with_run self (body : I2CDevice.t -> M unit) w :
  with_ (I2CDevice.__enter__ self) (I2CDevice.__exit__ self) body w
  = match body (i2c_acquired self) w with
    | (Return _, w2) => (Return tt, w2)
    | (Raise e, w2) => (Raise e, w2)
    end.
Proof.
  unfold with_. rewrite i2c_enter_run.
  by destruct (body _ w) as [[?|e] w2].
Qed.

(** C6.  An exception raised in the body of [with guard: ...] leaves the
    statement as the same exception, for the SPI and for the I2C guard:
    both [__exit__] methods return [False].  For the SPI guard the
    teardown is done all the same: after the statement the select line is
    high and the bus deinitialised.  An error with which the bus answers
    a [write] or a [readinto] leaves the method as it came, after a
    single call on the bus. *)
Theorem C6_exceptions_propagate_unchanged :
  forall (guard : ubus_device.SPIDevice) (dev : I2CDevice.t) (e : exn),
    (forall exc w,
        fst (ubus_device.__exit__ guard exc w) = Return false
        /\ fst (I2CDevice.__exit__ dev exc w) = Return false)
    /\ (forall (body : unit -> M unit) w w2,
          body tt (acquired guard w) = (Raise e, w2) ->
          with_ (ubus_device.__enter__ guard) (ubus_device.__exit__ guard) body w
          = (Raise e, released guard w2)
          /\ spi (released guard w2) = None
          /\ log (released guard w2)
             = log w2 ++ select_events guard true ++ [EvSpiDeinit]
          /\ forall cs, ubus_device.chip_select guard = Some cs ->
               level (io_pin cs) (released guard w2) = true)
    /\ (forall (body : I2CDevice.t -> M unit) w w2,
          body (i2c_acquired dev) w = (Raise e, w2) ->
          with_ (I2CDevice.__enter__ dev) (I2CDevice.__exit__ dev) body w
          = (Raise e, w2))
    /\ (forall buf d start end_ stop w,
          heap w !! buf = Some (Bytearray d) ->
          fault_at 0 w = Some e ->
          (exists w' ev,
              I2CDevice.write dev buf start end_ stop w = (Raise e, w')
              /\ log w' = log w ++ [ev])
          /\ (exists w' ev,
              I2CDevice.readinto dev buf start end_ stop w = (Raise e, w')
              /\ log w' = log w ++ [ev])).
Proof.
  intros guard dev e. split; [|split; [|split]].
  - intros exc w. by rewrite exit_returns.
  - intros body w w2 Hbody. rewrite with_run, Hbody.
    split; [reflexivity|]. split; [apply released_spi|].
    split; [apply released_log|]. intros cs Hcs. by apply released_level.
  - intros body w w2 Hbody.
    by rewrite i2c_with_run, Hbody.
  - intros buf d start end_ stop w Hbuf Hfault. split.
    + rewrite (write_run _ _ _ _ _ _ _ Hbuf), answer_run.
      change (fault_at 0 (emit ?ev ?x)) with (fault_at 0 x).
      rewrite sliced_fault, Hfault. eexists _, _. split; reflexivity.
    + rewrite (readinto_run _ _ _ _ _ _ _ Hbuf), answer_run.
      change (fault_at 0 (emit ?ev ?x)) with (fault_at 0 x).
      rewrite sliced_fault, Hfault. eexists _, _. split; reflexivity.
Qed.

(** A body that fails with a bus timeout on a guard whose select line is
    pin 5: the timeout comes out, and the line is high again. *)
Lemma C6_exceptions_witness :
  let guard := ubus_device.mkSPIDevice 100000 0 0
                 (Some (IO_esp32 (esp32.mkDigitalInOut 5))) in
  let body := fun _ : unit => raise (OSError 110) : M unit in
  exists w',
    with_ (ubus_device.__enter__ guard) (ubus_device.__exit__ guard) body
          (boot Refuse)
    = (Raise (OSError 110), w')
    /\ spi w' = None
    /\ level 5 w' = true.
Proof.
  intros guard body.
  destruct (C6_exceptions_propagate_unchanged guard
              (I2CDevice.mk (I2C_given 0) None None None 16) (OSError 110))
    as (_ & H & _).
  destruct (H body (boot Refuse) (acquired guard (boot Refuse)) eq_refl)
    as (Hrun & Hspi & _ & Hlevel).
  eexists. split; [exact Hrun|]. split; [exact Hspi|].
  exact (Hlevel _ eq_refl).
Defined.

(** ** Digital I/O on the esp8266 *)

(** C9.  [switch_to_output] of the esp8266 wrapper, called with a pull
    that is neither [None] nor [Pull.UP], raises [AttributeError] from
    that very call and leaves the board as it was: the pin keeps its
    mode, pull and level, and no call reaches it. *)
Theorem C9_switch_to_output_rejects_unknown_pull :
  forall (self : esp8266.DigitalInOut) (pull : Z) (value : bool) (w : World),
    pull <> esp8266.Pull.UP ->
    esp8266.switch_to_output self (Some pull) value w
    = (Raise (AttributeError
        "pull parameter is unrecognized & not defined in class 'udigitalio.Pull'"),
       w)
    /\ mode (esp8266._pin self)
         (snd (esp8266.switch_to_output self (Some pull) value w))
       = mode (esp8266._pin self) w.
Proof.
  intros self pull value w Hne. unfold esp8266.switch_to_output.
  destruct (Z.eqb_spec pull esp8266.Pull.UP) as [Heq|_]; [contradiction|].
  split; reflexivity.
Qed.

(** A pin left as an input by the constructor stays an input when
    [Pin.PULL_DOWN], which the esp8266 has not, is asked for. *)
Lemma C9_switch_to_output_witness :
  let w := snd (esp8266.__init__ 2 (boot Refuse)) in
  let d := esp8266.mkDigitalInOut 2 in
  Pin.PULL_DOWN <> esp8266.Pull.UP
  /\ fst (esp8266.switch_to_output d (Some Pin.PULL_DOWN) true w)
     = Raise (AttributeError
         "pull parameter is unrecognized & not defined in class 'udigitalio.Pull'")
  /\ mode 2 (snd (esp8266.switch_to_output d (Some Pin.PULL_DOWN) true w)) = IN.
Proof.
  intros w d.
  assert (Hne : Pin.PULL_DOWN <> esp8266.Pull.UP) by discriminate.
  destruct (C9_switch_to_output_rejects_unknown_pull d Pin.PULL_DOWN true w Hne)
    as [Hrun Hmode].
  split; [exact Hne|]. split; [by rewrite Hrun|].
  exact (eq_trans Hmode eq_refl).
Defined.

(** The accepted pulls do switch the pin to output. *)
Lemma switch_to_output_accepts (self : esp8266.DigitalInOut) (pull : option Z)
      (value : bool) (w : World) :
  pull = None \/ pull = Some esp8266.Pull.UP ->
  exists w',
    esp8266.switch_to_output self pull value w = (Return tt, w')
    /\ mode (esp8266._pin self) w' = OUT
    /\ level (esp8266._pin self) w' = value.
Proof.
  intros [-> | ->]; eexists; (split; [reflexivity|]);
    unfold mode, level; rewrite state_emit, state_insert_eq; done.
Qed.

(** ** The duty cycle of a PWM output *)

(** On [v], [int(v * 1023 / 65535)] is the integer quotient. *)
Definition scaled_ok (fmt : pwm.float_format) (v : Z) : bool :=
  match pwm.int_of_float
          (pwm.truediv fmt (pwm.float_of_int fmt (v * 1023))
                           (pwm.float_of_int fmt 65535)) with
  | Return d => d =? v * 1023 / 65535
  | Raise _ => false
  end.

Fixpoint all_from (p : Z -> bool) (z : Z) (n : nat) : bool :=
  match n with
  | O => true
  | S k => p z && all_from p (z + 1) k
  end.

Lemma all_from_spec p n :
  forall z, all_from p z n = true ->
            forall v, z <= v < z + Z.of_nat n -> p v = true.
Proof.
  induction n as [|n IH]; intros z H v Hv; [lia|].
  simpl in H. apply andb_true_iff in H as [Hz Hrest].
  destruct (Z.eq_dec v z) as [->|Hne]; [exact Hz|].
  apply (IH (z + 1) Hrest). lia.
Qed.

(** In single precision the check is run on each of the 65536 duty
    cycles. *)
Lemma scaled_ok_all_binary32 :
  all_from (scaled_ok pwm.Binary32) 0 (Z.to_nat 65536) = true.
Proof. vm_cast_no_check (eq_refl true). Qed.

(** In double precision it is run on the floats of the machine, which
    compute the same quotient. *)
Definition scaled_prim (v : Z) : spec_float :=
  FloatOps.Prim2SF
    (PrimFloat.div (PrimFloat.of_uint63 (Uint63Axioms.of_Z (v * 1023)))
                   (PrimFloat.of_uint63 (Uint63Axioms.of_Z 65535))).

Definition scaled_prim_ok (v : Z) : bool :=
  match pwm.int_of_float (scaled_prim v) with
  | Return d => d =? v * 1023 / 65535
  | Raise _ => false
  end.

Lemma scaled_prim_spec v :
  0 <= v <= 65535 ->
  scaled_prim v
  = pwm.truediv pwm.Binary64 (pwm.float_of_int pwm.Binary64 (v * 1023))
                             (pwm.float_of_int pwm.Binary64 65535).
Proof.
  intros Hv. unfold scaled_prim.
  rewrite FloatAxioms.div_spec, !FloatAxioms.of_uint63_spec, !Uint63.of_Z_spec.
  assert (HwB : Uint63Axioms.wB = 9223372036854775808) by reflexivity.
  rewrite !Z.mod_small by (rewrite HwB; lia).
  reflexivity.
Qed.

Lemma scaled_prim_ok_all : all_from scaled_prim_ok 0 (Z.to_nat 65536) = true.
Proof. vm_cast_no_check (eq_refl true). Qed.

Lemma scaled_ok_in_range fmt v : 0 <= v <= 65535 -> scaled_ok fmt v = true.
Proof.
  intros Hv. destruct fmt.
  - apply (all_from_spec _ _ _ scaled_ok_all_binary32). lia.
  - unfold scaled_ok. rewrite <- (scaled_prim_spec v Hv).
    apply (all_from_spec _ _ _ scaled_prim_ok_all v). lia.
Qed.

Lemma scaled_value fmt c :
  0 <= c <= 65535 ->
  pwm.int_of_float
    (pwm.truediv fmt (pwm.float_of_int fmt (c * 1023))
                     (pwm.float_of_int fmt 65535))
  = Return (c * 1023 / 65535).
Proof.
  intros Hc. pose proof (scaled_ok_in_range fmt c Hc) as H.
  unfold scaled_ok in H.
  destruct (pwm.int_of_float _) as [d|e]; [|discriminate H].
  f_equal. by apply Z.eqb_eq.
Qed.

(** C10, as amended.  The setter stores the argument clamped to
    [0, 65535], and the property then returns it.  With [MICROPY] the
    pin receives [duty(int(c * 1023 / 65535))], which in single and in
    double precision is the integer quotient of [c * 1023] by 65535;
    without it the pin receives [ChangeDutyCycle(c / 655.35)], a
    percentage. *)
Theorem C10_duty_cycle_clamped_and_scaled :
  forall (fmt : pwm.float_format) (self : pwm.PWMOut) (val : Z),
    let c := Z.max 0 (Z.min 65535 val) in
    0 <= c <= 65535
    /\ (val < 0 -> c = 0)
    /\ (65535 < val -> c = 65535)
    /\ (0 <= val <= 65535 -> c = val)
    /\ (exists self',
          pwm.set_duty_cycle true fmt self val = Return self'
          /\ pwm.duty_cycle self' = c
          /\ pwm._pin self' = pwm._pin self ++ [pwm.PWM_duty (c * 1023 / 65535)])
    /\ (exists self',
          pwm.set_duty_cycle false fmt self val = Return self'
          /\ pwm.duty_cycle self' = c
          /\ pwm._pin self'
             = pwm._pin self
               ++ [pwm.GPIO_ChangeDutyCycle
                     (pwm.truediv fmt (pwm.float_of_int fmt c)
                                      (pwm.lit_655_35 fmt))]).
Proof.
  intros fmt self val c.
  assert (Hc : 0 <= c <= 65535) by (unfold c; lia).
  split; [exact Hc|]. split; [unfold c; lia|].
  split; [unfold c; lia|]. split; [unfold c; lia|]. split.
  - unfold pwm.set_duty_cycle. fold c. rewrite (scaled_value fmt c Hc).
    eexists. split; [reflexivity|]. split; reflexivity.
  - unfold pwm.set_duty_cycle. fold c.
    eexists. split; [reflexivity|]. split; reflexivity.
Qed.

(** C10, as stated, fails without [MICROPY]: a full-scale duty cycle on
    a Raspberry Pi reaches the pin as [ChangeDutyCycle(100.0)], not as
    the scaled value 1023. *)
Lemma C10_raspberry_pi_counterexample :
  ~ (forall (MICROPY : bool) (fmt : pwm.float_format) (self : pwm.PWMOut)
            (val : Z),
        exists self',
          pwm.set_duty_cycle MICROPY fmt self val = Return self'
          /\ pwm.duty_cycle self' = Z.max 0 (Z.min 65535 val)
          /\ pwm._pin self'
             = pwm._pin self
               ++ [pwm.PWM_duty (Z.max 0 (Z.min 65535 val) * 1023 / 65535)]).
Proof.
  intros H.
  destruct (H false pwm.Binary64 (pwm.mkPWMOut 18 [] 500 0) 65535)
    as (self' & Hrun & _ & Hpin).
  vm_compute in Hrun. injection Hrun as <-. discriminate Hpin.
Qed.

(** what the pin receives in that case *)
Example raspberry_pi_full_scale :
  pwm.set_duty_cycle false pwm.Binary64 (pwm.mkPWMOut 18 [] 500 0) 65535
  = Return (pwm.mkPWMOut 18
              [pwm.GPIO_ChangeDutyCycle (pwm.float_of_int pwm.Binary64 100)]
              500 65535).
Proof. vm_compute; reflexivity. Qed.

(** * Further properties *)

(** ** The SPI guard and the pins *)

Lemma acquired_state_ne self q w :
  (forall cs, ubus_device.chip_select self = Some cs -> io_pin cs <> q) ->
  Pin.state q (acquired self w) = Pin.state q w.
Proof.
  intros Hq. unfold acquired, ubus_device.__enter__. unfold_monad.
  unfold SPI.init. unfold_monad.
  destruct (ubus_device.chip_select self) as [cs|] eqn:Hcs; [|reflexivity].
  rewrite io_set_value_run; simpl.
  rewrite state_emit, state_insert_ne by (by apply Hq). reflexivity.
Qed.

Lemma released_state_ne self q w :
  (forall cs, ubus_device.chip_select self = Some cs -> io_pin cs <> q) ->
  Pin.state q (released self w) = Pin.state q w.
Proof.
  intros Hq. unfold released, ubus_device.__exit__. unfold_monad.
  unfold SPI.deinit. unfold_monad.
  destruct (ubus_device.chip_select self) as [cs|] eqn:Hcs; [|reflexivity].
  rewrite io_set_value_run; simpl.
  rewrite state_emit, state_set_spi, state_emit, state_insert_ne
    by (by apply Hq).
  reflexivity.
Qed.

(** X1.  Whatever the body of [with guard: ...] sends to the hardware
    lies between the guard's own calls: bus configuration and select
    low before it, select high and bus deinitialisation after it,
    whether the body returned or raised. *)
Theorem with_brackets_the_body :
  forall (self : ubus_device.SPIDevice) (body : unit -> M unit)
         (w w2 : World) (r : outcome unit) (evs : list event),
    body tt (acquired self w) = (r, w2) ->
    log w2 = log (acquired self w) ++ evs ->
    log (snd (with_ (ubus_device.__enter__ self) (ubus_device.__exit__ self)
                body w))
    = log w
      ++ EvSpiInit (ubus_device.baudrate self) (ubus_device.polarity self)
                   (ubus_device.phase self)
         :: select_events self false
      ++ evs ++ select_events self true ++ [EvSpiDeinit].
Proof.
  intros self body w w2 r evs Hbody Hlog. rewrite with_run, Hbody.
  assert (Hrel : log (released self w2)
                 = log w ++ EvSpiInit (ubus_device.baudrate self)
                     (ubus_device.polarity self) (ubus_device.phase self)
                     :: select_events self false
                   ++ evs ++ select_events self true ++ [EvSpiDeinit]).
  { rewrite released_log, Hlog, acquired_log.
    rewrite <- !app_assoc. simpl. by rewrite <- ?app_assoc. }
  by destruct r.
Qed.

Lemma with_brackets_witness :
  log (snd (with_ (ubus_device.__enter__
                     (ubus_device.mkSPIDevice 100000 0 0
                        (Some (IO_esp32 (esp32.mkDigitalInOut 5)))))
                  (ubus_device.__exit__
                     (ubus_device.mkSPIDevice 100000 0 0
                        (Some (IO_esp32 (esp32.mkDigitalInOut 5)))))
                  (fun _ => Pin.set_value 9 true ;; raise (OSError 5))
                  (boot Refuse)))
  = [EvSpiInit 100000 0 0; EvPinValue 5 false; EvPinValue 9 true;
     EvPinValue 5 true; EvSpiDeinit].
Proof.
  exact (with_brackets_the_body
           (ubus_device.mkSPIDevice 100000 0 0
              (Some (IO_esp32 (esp32.mkDigitalInOut 5))))
           (fun _ => Pin.set_value 9 true ;; raise (OSError 5))
           (boot Refuse) _ _ [EvPinValue 9 true] eq_refl eq_refl).
Defined.

Lemma with_state_ne (self : ubus_device.SPIDevice) (body : unit -> M unit)
      (q : nat) (w : World) :
  (forall cs, ubus_device.chip_select self = Some cs -> io_pin cs <> q) ->
  (forall w1, Pin.state q (snd (body tt w1)) = Pin.state q w1) ->
  Pin.state q (snd (with_ (ubus_device.__enter__ self)
                      (ubus_device.__exit__ self) body w))
  = Pin.state q w.
Proof.
  intros Hq Hbody. rewrite with_run.
  pose proof (Hbody (acquired self w)) as Hb.
  destruct (body tt (acquired self w)) as [[?|e] w2]; simpl in *;
    by rewrite released_state_ne, Hb, acquired_state_ne.
Qed.

(** X2.  A guard changes no pin but its select line: a pin the body
    leaves alone is, after the [with] statement, as it was before; a
    guard built without select line changes no pin at all. *)
Theorem guard_changes_only_its_select_line :
  forall (self : ubus_device.SPIDevice) (body : unit -> M unit)
         (q : nat) (w : World),
    (forall cs, ubus_device.chip_select self = Some cs -> io_pin cs <> q) ->
    (forall w1, Pin.state q (snd (body tt w1)) = Pin.state q w1) ->
    Pin.state q (snd (with_ (ubus_device.__enter__ self)
                        (ubus_device.__exit__ self) body w))
    = Pin.state q w
    /\ (ubus_device.chip_select self = None ->
        forall p, Pin.state p (acquired self w) = Pin.state p w
                  /\ Pin.state p (released self w) = Pin.state p w).
Proof.
  intros self body q w Hq Hbody. split; [by apply with_state_ne|].
  intros Hnone p.
  split; [apply acquired_state_ne | apply released_state_ne];
    intros cs Hcs; congruence.
Qed.

Lemma guard_changes_only_witness :
  let self := ubus_device.mkSPIDevice 100000 0 0
                (Some (IO_esp32 (esp32.mkDigitalInOut 5))) in
  let w := snd (Pin.set_value 9 true (boot Refuse)) in
  level 9 (snd (with_ (ubus_device.__enter__ self) (ubus_device.__exit__ self)
                  (fun _ => raise (OSError 5)) w)) = true.
Proof.
  intros self w. unfold level.
  destruct (guard_changes_only_its_select_line self
              (fun _ => raise (OSError 5)) 9%nat w) as [H _].
  - intros cs [= <-]. discriminate.
  - reflexivity.
  - rewrite H. reflexivity.
Defined.

(** X3.  Two guards on one bus, one acquired inside the other: when the
    inner [with] statement is left, the bus is deinitialised although
    the outer guard is still selected, its select line low. *)
Theorem nested_guard_takes_the_bus_from_the_outer :
  forall (outer inner : ubus_device.SPIDevice) (co ci : DigitalIO)
         (body : unit -> M unit) (w : World),
    ubus_device.chip_select outer = Some co ->
    ubus_device.chip_select inner = Some ci ->
    io_pin co <> io_pin ci ->
    (forall w1, Pin.state (io_pin co) (snd (body tt w1))
                = Pin.state (io_pin co) w1) ->
    let w2 := snd (with_ (ubus_device.__enter__ inner)
                     (ubus_device.__exit__ inner) body (acquired outer w)) in
    spi w2 = None
    /\ level (io_pin co) w2 = false
    /\ level (io_pin ci) w2 = true.
Proof.
  intros outer inner co ci body w Ho Hi Hne Hbody w2. subst w2.
  split; [|split].
  - rewrite with_run. destruct (body tt _) as [[?|e] w3]; apply released_spi.
  - unfold level.
    rewrite (with_state_ne inner body (io_pin co)).
    + by apply acquired_level.
    + intros cs Hcs. rewrite Hi in Hcs. injection Hcs as <-. congruence.
    + exact Hbody.
  - rewrite with_run.
    destruct (body tt _) as [[?|e] w3]; by apply released_level.
Qed.

Lemma nested_guard_witness :
  let outer := ubus_device.mkSPIDevice 100000 0 0
                 (Some (IO_esp32 (esp32.mkDigitalInOut 5))) in
  let inner := ubus_device.mkSPIDevice 4000000 1 1
                 (Some (IO_digi_io (digi_io.mkDigitalInOut 6))) in
  let w2 := snd (with_ (ubus_device.__enter__ inner)
                   (ubus_device.__exit__ inner) (fun _ => mret tt)
                   (acquired outer (boot Refuse))) in
  spi w2 = None /\ level 5 w2 = false /\ level 6 w2 = true.
Proof.
  intros outer inner.
  apply (nested_guard_takes_the_bus_from_the_outer outer inner
           (IO_esp32 (esp32.mkDigitalInOut 5))
           (IO_digi_io (digi_io.mkDigitalInOut 6))
           (fun _ => mret tt) (boot Refuse) eq_refl eq_refl).
  - discriminate.
  - reflexivity.
Defined.

(** ** Transfers and the heap *)

Lemma slice_bounds_in_range n start e :
  0 <= start <= e -> e <= Z.of_nat n ->
  slice_bounds n start e = (Z.to_nat start, Z.to_nat (e - start)).
Proof.
  intros H1 H2. unfold slice_bounds.
  by rewrite !slice_index_in_range by lia.
Qed.

Lemma take_rx_length k (l : list Z) : length (take k (l ++ repeat 255 k)) = k.
Proof. rewrite length_take, length_app, repeat_length. lia. Qed.

Lemma write_world self buf d start end_ stop w :
  heap w !! buf = Some (Bytearray d) ->
  snd (I2CDevice.write self buf start end_ stop w)
  = answered
      (emit (EvI2CWriteto (I2CDevice.i2c self) (I2CDevice.device_address self)
               (py_slice d start (end_or_len (Bytearray d) end_)) stop)
            (sliced (Bytearray d) start end_ w)).
Proof.
  intros H. rewrite (write_run _ _ _ _ _ _ _ H), answer_run.
  by destruct (fault_at 0 _).
Qed.

(** X6.  [write] on a bytearray allocates one object, the copy of the
    slice, and changes nothing else: every object of the heap is as it
    was, the caller's buffer included, and nothing is taken from the
    bytes the device has to send. *)
Theorem write_allocates_the_slice_and_reads_only :
  forall (self : I2CDevice.t) (buf : nat) (d : list Z) (start : Z)
         (end_ : option Z) (stop : bool) (w : World),
    heap w !! buf = Some (Bytearray d) ->
    let e := match end_ with None => Z.of_nat (length d) | Some e => e end in
    let w' := snd (I2CDevice.write self buf start end_ stop w) in
    heap w' = <[fresh_loc w := Bytearray (py_slice d start e)]> (heap w)
    /\ size (heap w') = S (size (heap w))
    /\ heap w' !! buf = Some (Bytearray d)
    /\ rx w' = rx w.
Proof.
  intros self buf d start end_ stop w H e w'. subst w'.
  assert (He : end_or_len (Bytearray d) end_ = e) by by destruct end_.
  rewrite (write_world _ _ _ _ _ _ _ H), He. simpl. rewrite He.
  split; [reflexivity|].
  split; [apply map_size_insert_None, fresh_loc_None|].
  split; [|reflexivity].
  rewrite lookup_insert_ne; [done | by eapply fresh_loc_ne].
Qed.

Lemma write_allocates_witness :
  let w := mkWorld ∅ None {[ 0%nat := Bytearray [1;2;3] ]} [] [7;8] [] Refuse [] in
  let w' := snd (I2CDevice.write (I2CDevice.mk (I2C_given 0) None None None 16)
                   0 1 None true w) in
  size (heap w') = 2%nat
  /\ heap w' !! 0%nat = Some (Bytearray [1;2;3])
  /\ rx w' = [7;8].
Proof.
  intros w.
  assert (H : heap w !! 0%nat = Some (Bytearray [1;2;3]))
    by (vm_compute; reflexivity).
  destruct (write_allocates_the_slice_and_reads_only
              (I2CDevice.mk (I2C_given 0) None None None 16)
              0 [1;2;3] 1 None true w H) as (_ & Hsize & Hbuf & Hrx).
  split; [exact Hsize|]. split; [exact Hbuf | exact Hrx].
Defined.

(** X7.  [readinto] on a bytearray allocates one object too, although
    its docstring says the slice causes no allocation: after the call
    the heap holds exactly one object more, the one the bytes went to. *)
Theorem readinto_allocates_one_object :
  forall (self : I2CDevice.t) (buf : nat) (d : list Z) (start : Z)
         (end_ : option Z) (stop : bool) (w : World),
    heap w !! buf = Some (Bytearray d) ->
    let w' := snd (I2CDevice.readinto self buf start end_ stop w) in
    dom (heap w') = {[ fresh_loc w ]} ∪ dom (heap w)
    /\ size (heap w') = S (size (heap w)).
Proof.
  intros self buf d start end_ stop w H w'. subst w'.
  rewrite (readinto_run _ _ _ _ _ _ _ H), answer_run.
  destruct (fault_at 0 _); simpl.
  - split; [apply dom_insert_L|].
    apply map_size_insert_None, fresh_loc_None.
  - rewrite insert_insert_eq.
    split; [apply dom_insert_L|].
    apply map_size_insert_None, fresh_loc_None.
Qed.

Lemma readinto_allocates_witness :
  size (heap (snd (I2CDevice.readinto
                     (I2CDevice.mk (I2C_given 0) None None None 16)
                     0 0 None true
                     (mkWorld ∅ None {[ 0%nat := Bytearray [0;0] ]} []
                        [7;8] [] Refuse [])))) = 2%nat.
Proof.
  set (w := mkWorld ∅ None {[ 0%nat := Bytearray [0;0] ]} [] [7;8] [] Refuse []).
  assert (H : heap w !! 0%nat = Some (Bytearray [0;0]))
    by (vm_compute; reflexivity).
  destruct (readinto_allocates_one_object
              (I2CDevice.mk (I2C_given 0) None None None 16)
              0 [0;0] 0 None true w H) as (_ & Hsize).
  exact Hsize.
Defined.

(** X8.  Through a memoryview of a bytearray, [readinto] with indices
    inside the view does store in place: the bytes received replace
    positions [start], ..., [end - 1] of the view in the bytearray
    underneath, every other byte of it stays, and the device has sent
    [end - start] bytes. *)
Theorem readinto_memoryview_fills_the_range :
  forall (self : I2CDevice.t) (buf b off n : nat) (d : list Z) (start : Z)
         (end_ : option Z) (stop : bool) (w : World),
    heap w !! buf = Some (Memoryview b off n) ->
    heap w !! b = Some (Bytearray d) ->
    let e := match end_ with None => Z.of_nat n | Some e => e end in
    0 <= start <= e -> e <= Z.of_nat n ->
    fault_at 0 w = None ->
    let s := Z.to_nat start in
    let k := Z.to_nat (e - start) in
    exists w',
      I2CDevice.readinto self buf start end_ stop w = (Return tt, w')
      /\ heap w' !! b
         = Some (Bytearray (take (off + s) d
                            ++ take k (rx w ++ repeat 255 k)
                            ++ drop (off + s + k) d))
      /\ rx w' = drop k (rx w)
      /\ log w' = log w ++ [EvI2CReadfromInto (I2CDevice.i2c self)
                              (I2CDevice.device_address self) k stop].
Proof.
  intros self buf b off n d start end_ stop w Hbuf Hb e H1 H2 Hok s k.
  assert (He : end_or_len (Memoryview b off n) end_ = e) by by destruct end_.
  assert (Hne : fresh_loc w ≠ b) by by eapply fresh_loc_ne.
  unfold I2CDevice.readinto.
  unfold mbind at 1, M_bind, bind. rewrite (end_run _ _ _ _ Hbuf), He.
  unfold mbind at 1, M_bind, bind. rewrite (getitem_slice_run _ _ _ _ _ Hbuf).
  unfold slice_obj. rewrite (slice_bounds_in_range n start e H1 H2).
  fold s k.
  unfold I2C.readfrom_into, deref. unfold_monad. simpl.
  rewrite lookup_insert_eq. simpl. rewrite answer_run.
  change (fault_at 0 (emit ?ev (set_heap ?f w))) with (fault_at 0 w).
  rewrite Hok. unfold I2C.take_rx, store_bytes, deref. unfold_monad. simpl.
  rewrite lookup_insert_eq. simpl.
  rewrite lookup_insert_ne by done. rewrite Hb. simpl.
  eexists. split; [reflexivity|]. simpl.
  split; [|split; reflexivity].
  rewrite lookup_insert_eq. unfold splice. by rewrite take_rx_length.
Qed.

Lemma readinto_memoryview_witness :
  heap (snd (I2CDevice.readinto (I2CDevice.mk (I2C_given 0) None None None 16)
               1 1 (Some 3) true
               (mkWorld ∅ None
                  {[ 0%nat := Bytearray [0;0;0;0]; 1%nat := Memoryview 0 0 4 ]}
                  [] [17;34;51;68] [] Refuse []))) !! 0%nat
  = Some (Bytearray [0;17;34;0]).
Proof.
  set (w := mkWorld ∅ None
              {[ 0%nat := Bytearray [0;0;0;0]; 1%nat := Memoryview 0 0 4 ]}
              [] [17;34;51;68] [] Refuse []).
  assert (H1 : heap w !! 1%nat = Some (Memoryview 0 0 4))
    by (vm_compute; reflexivity).
  assert (H0 : heap w !! 0%nat = Some (Bytearray [0;0;0;0]))
    by (vm_compute; reflexivity).
  destruct (readinto_memoryview_fills_the_range
              (I2CDevice.mk (I2C_given 0) None None None 16)
              1 0 0 4 [0;0;0;0] 1 (Some 3) true w H1 H0
              ltac:(lia) ltac:(simpl; lia) eq_refl)
    as (w' & Hrun & Hheap & _).
  rewrite Hrun. exact Hheap.
Defined.

(** ** Index ranges *)

Lemma py_slice_empty {A} (l : list A) (start end_ : Z) :
  0 <= end_ <= start -> py_slice l start end_ = [].
Proof.
  intros H. unfold py_slice, slice_bounds.
  assert (Hn : Z.to_nat (slice_index (Z.of_nat (length l)) end_
                         - slice_index (Z.of_nat (length l)) start) = 0%nat).
  { unfold slice_index.
    destruct (Z.ltb_spec end_ 0), (Z.ltb_spec start 0); lia. }
  rewrite Hn. reflexivity.
Qed.

Lemma py_slice_length_le {A} (l : list A) (start end_ : Z) :
  (length (py_slice l start end_) <= length l)%nat.
Proof.
  unfold py_slice. destruct (slice_bounds _ _ _) as [s n].
  rewrite length_take, length_drop. lia.
Qed.

Lemma py_slice_to_the_end {A} (l : list A) (start end_ : Z) :
  0 <= start <= Z.of_nat (length l) -> Z.of_nat (length l) <= end_ ->
  py_slice l start end_ = drop (Z.to_nat start) l.
Proof.
  intros H1 H2. unfold py_slice, slice_bounds.
  assert (Hs : slice_index (Z.of_nat (length l)) start = start)
    by (by apply slice_index_in_range).
  assert (He : slice_index (Z.of_nat (length l)) end_ = Z.of_nat (length l)).
  { unfold slice_index. destruct (Z.ltb_spec end_ 0); lia. }
  rewrite Hs, He. apply take_ge. rewrite length_drop. lia.
Qed.

Lemma py_slice_from_the_end {A} (l : list A) (start : Z) :
  - Z.of_nat (length l) <= start < 0 ->
  py_slice l start (Z.of_nat (length l))
  = drop (Z.to_nat (Z.of_nat (length l) + start)) l.
Proof.
  intros H. unfold py_slice, slice_bounds.
  assert (Hs : slice_index (Z.of_nat (length l)) start
               = Z.of_nat (length l) + start).
  { unfold slice_index. destruct (Z.ltb_spec start 0); lia. }
  assert (He : slice_index (Z.of_nat (length l)) (Z.of_nat (length l))
               = Z.of_nat (length l)).
  { apply slice_index_in_range. lia. }
  rewrite Hs, He. apply take_ge. rewrite length_drop. lia.
Qed.

(** X9.  An empty range is not a no-op: with [end <= start] a [write]
    still addresses the device, with no byte, and a [readinto] still
    makes its call, for zero bytes, taking nothing from the device. *)
Theorem empty_range_still_calls_the_bus :
  forall (self : I2CDevice.t) (buf : nat) (d : list Z) (start e : Z)
         (stop : bool) (w : World),
    heap w !! buf = Some (Bytearray d) ->
    0 <= e <= start ->
    log (snd (I2CDevice.write self buf start (Some e) stop w))
    = log w ++ [EvI2CWriteto (I2CDevice.i2c self)
                  (I2CDevice.device_address self) [] stop]
    /\ log (snd (I2CDevice.readinto self buf start (Some e) stop w))
       = log w ++ [EvI2CReadfromInto (I2CDevice.i2c self)
                     (I2CDevice.device_address self) 0 stop]
    /\ rx (snd (I2CDevice.readinto self buf start (Some e) stop w)) = rx w.
Proof.
  intros self buf d start e stop w H He.
  split; [|split].
  - rewrite (write_log _ _ _ _ _ _ _ H). simpl. by rewrite py_slice_empty.
  - rewrite (readinto_log _ _ _ _ _ _ _ H). simpl. by rewrite py_slice_empty.
  - rewrite (readinto_run _ _ _ _ _ _ _ H), answer_run. simpl.
    rewrite py_slice_empty by done.
    by destruct (fault_at 0 _).
Qed.

Lemma empty_range_witness :
  log (snd (I2CDevice.write (I2CDevice.mk (I2C_given 0) None None None 16)
              0 2 (Some 1) true
              (mkWorld ∅ None {[ 0%nat := Bytearray [1;2;3] ]} [] [] []
                 Refuse [])))
  = [EvI2CWriteto (I2C_given 0) 16 [] true].
Proof.
  set (w := mkWorld ∅ None {[ 0%nat := Bytearray [1;2;3] ]} [] [] [] Refuse []).
  assert (H : heap w !! 0%nat = Some (Bytearray [1;2;3]))
    by (vm_compute; reflexivity).
  destruct (empty_range_still_calls_the_bus
              (I2CDevice.mk (I2C_given 0) None None None 16)
              0 [1;2;3] 2 1 true w H ltac:(lia)) as (Hw & _).
  exact Hw.
Defined.

(** X10.  Indices outside a bytearray never make [write] fail: they are
    clamped as a slice clamps them.  The bytes sent are never more than
    the buffer holds; an [end] past the buffer sends from [start] to the
    last byte; a negative [start] counts from the end, so that
    [start = -k] sends the last [k] bytes; and when the bus acknowledges,
    the call returns. *)
Theorem out_of_range_indices_are_clamped :
  forall (self : I2CDevice.t) (buf : nat) (d : list Z) (start : Z)
         (end_ : option Z) (stop : bool) (w : World),
    heap w !! buf = Some (Bytearray d) ->
    exists data,
      log (snd (I2CDevice.write self buf start end_ stop w))
      = log w ++ [EvI2CWriteto (I2CDevice.i2c self)
                    (I2CDevice.device_address self) data stop]
      /\ (length data <= length d)%nat
      /\ (forall e, end_ = Some e -> Z.of_nat (length d) <= e ->
            0 <= start <= Z.of_nat (length d) ->
            data = drop (Z.to_nat start) d)
      /\ (end_ = None -> - Z.of_nat (length d) <= start < 0 ->
            data = drop (Z.to_nat (Z.of_nat (length d) + start)) d)
      /\ (fault_at 0 w = None ->
            fst (I2CDevice.write self buf start end_ stop w) = Return tt).
Proof.
  intros self buf d start end_ stop w H.
  eexists. split; [apply (write_log _ _ _ _ _ _ _ H)|].
  split; [apply py_slice_length_le|]. split; [|split].
  - intros e -> He Hs. simpl. by apply py_slice_to_the_end.
  - intros -> Hs. simpl. by apply py_slice_from_the_end.
  - intros Hok. rewrite (write_run _ _ _ _ _ _ _ H), answer_run.
    change (fault_at 0 (emit ?ev ?x)) with (fault_at 0 x).
    by rewrite sliced_fault, Hok.
Qed.

Lemma out_of_range_witness :
  exists data,
    log (snd (I2CDevice.write (I2CDevice.mk (I2C_given 0) None None None 16)
                0 (-2) None true
                (mkWorld ∅ None {[ 0%nat := Bytearray [1;2;3] ]} [] [] []
                   Refuse [])))
    = [EvI2CWriteto (I2C_given 0) 16 data true]
    /\ data = [2;3].
Proof.
  set (w := mkWorld ∅ None {[ 0%nat := Bytearray [1;2;3] ]} [] [] [] Refuse []).
  assert (H : heap w !! 0%nat = Some (Bytearray [1;2;3]))
    by (vm_compute; reflexivity).
  destruct (out_of_range_indices_are_clamped
              (I2CDevice.mk (I2C_given 0) None None None 16)
              0 [1;2;3] (-2) None true w H)
    as (data & Hlog & _ & _ & Hneg & _).
  exists data. split; [exact Hlog|].
  rewrite (Hneg eq_refl); [reflexivity | simpl; lia].
Defined.

(** ** Construction of the I2C guard with a failing scan *)

(** X11.  When the bus answers the scan of [probe=True] with an error,
    that error leaves the constructor as it is, after the one scan, and
    no guard is built; with [probe=False] the constructor makes no call
    on the bus and builds the guard whatever answers on the wire. *)
Theorem scan_error_fails_construction :
  forall (bus : I2CBus) (address : Z) (scl sda : option nat)
         (f : option Z) (e : exn) (w : World),
    fault_at 0 w = Some e ->
    (exists w',
        I2CDevice.__init__ bus address true scl sda f w = (Raise e, w')
        /\ log w' = log w ++ [EvI2CScan bus])
    /\ (exists self,
        I2CDevice.__init__ bus address false scl sda f w = (Return self, w)
        /\ I2CDevice.device_address self = address
        /\ I2CDevice.i2c self = bus).
Proof.
  intros bus address scl sda f e w Hf. split.
  - rewrite init_probe_run, Hf. eexists. split; reflexivity.
  - eexists. split; [apply init_noprobe_run|]. split; reflexivity.
Qed.

Lemma scan_error_witness :
  fst (I2CDevice.__init__ (I2C_given 0) 16 true None None None
         (mkWorld ∅ None ∅ [16] [] [Some (OSError 110)] Refuse []))
  = Raise (OSError 110).
Proof.
  destruct (scan_error_fails_construction (I2C_given 0) 16 None None None
              (OSError 110)
              (mkWorld ∅ None ∅ [16] [] [Some (OSError 110)] Refuse [])
              eq_refl) as ((w' & Hrun & _) & _).
  by rewrite Hrun.
Defined.

(** X13.  When the write of [write_then_readinto] is acknowledged and
    the read is refused, the error of the read comes out; the bus has
    seen the write without stop and the read, and the input buffer is
    as it was. *)
Theorem read_refused_after_write :
  forall (self : I2CDevice.t) (out_buffer in_buffer : nat)
         (dout din : list Z) (out_start : Z) (out_end : option Z)
         (in_start : Z) (in_end : option Z) (e : exn) (w : World),
    heap w !! out_buffer = Some (Bytearray dout) ->
    heap w !! in_buffer = Some (Bytearray din) ->
    fault_at 0 w = None ->
    fault_at 1 w = Some e ->
    let oe := match out_end with None => Z.of_nat (length dout) | Some e => e end in
    let ie := match in_end with None => Z.of_nat (length din) | Some e => e end in
    exists w',
      I2CDevice.write_then_readinto self out_buffer in_buffer
        out_start out_end in_start in_end w = (Raise e, w')
      /\ log w'
         = log w ++ [EvI2CWriteto (I2CDevice.i2c self)
                       (I2CDevice.device_address self)
                       (py_slice dout out_start oe) false;
                     EvI2CReadfromInto (I2CDevice.i2c self)
                       (I2CDevice.device_address self)
                       (length (py_slice din in_start ie)) true]
      /\ heap w' !! in_buffer = Some (Bytearray din)
      /\ rx w' = rx w.
Proof.
  intros self ob ib dout din os oe_ is_ ie_ e w Ho Hi H0 H1 oe ie.
  assert (Hoe : end_or_len (Bytearray dout) oe_ = oe) by by destruct oe_.
  assert (Hie : end_or_len (Bytearray din) ie_ = ie) by by destruct ie_.
  rewrite (write_then_readinto_run _ _ _ _ _ _ _ _ _ _ Ho Hi).
  unfold mbind, M_bind, bind.
  rewrite (write_run _ _ _ _ _ _ _ Ho), answer_run, Hoe.
  change (fault_at 0 (emit ?ev ?x)) with (fault_at 0 x).
  rewrite sliced_fault, H0.
  set (w1 := answered _).
  assert (Hi' : heap w1 !! ib = Some (Bytearray din)).
  { apply (sliced_lookup_old _ _ _ _ _ _ Hi). }
  rewrite (readinto_run _ _ _ _ _ _ _ Hi'), answer_run, Hie.
  change (fault_at 0 (emit ?ev ?x)) with (fault_at 0 x).
  rewrite sliced_fault. unfold w1 at 1. rewrite fault_at_answered.
  change (fault_at 1 (emit ?ev ?x)) with (fault_at 1 x).
  rewrite sliced_fault, H1.
  eexists. split; [reflexivity|]. simpl.
  split; [by rewrite <- app_assoc|]. split; [|reflexivity].
  rewrite !lookup_insert_ne; [exact Hi | by eapply fresh_loc_ne |].
  eapply fresh_loc_ne. exact Hi'.
Qed.

Lemma read_refused_witness :
  exists w',
    I2CDevice.write_then_readinto (I2CDevice.mk (I2C_given 0) None None None 16)
      0 1 0 None 0 None
      (mkWorld ∅ None {[ 0%nat := Bytearray [170]; 1%nat := Bytearray [0;0] ]}
         [] [] [None; Some (OSError 110)] Refuse [])
    = (Raise (OSError 110), w')
    /\ heap w' !! 1%nat = Some (Bytearray [0;0]).
Proof.
  set (w := mkWorld ∅ None {[ 0%nat := Bytearray [170]; 1%nat := Bytearray [0;0] ]}
              [] [] [None; Some (OSError 110)] Refuse []).
  assert (Ho : heap w !! 0%nat = Some (Bytearray [170]))
    by (vm_compute; reflexivity).
  assert (Hi : heap w !! 1%nat = Some (Bytearray [0;0]))
    by (vm_compute; reflexivity).
  destruct (read_refused_after_write
              (I2CDevice.mk (I2C_given 0) None None None 16)
              0 1 [170] [0;0] 0 None 0 None (OSError 110) w Ho Hi
              eq_refl eq_refl) as (w' & Hrun & _ & Hheap & _).
  exists w'. split; [exact Hrun | exact Hheap].
Defined.

(** ** The PWM output *)

Lemma scale_bounds c :
  0 <= c <= 65535 ->
  0 <= c * 1023 / 65535 <= 1023
  /\ (c * 1023 / 65535 = 1023 <-> c = 65535)
  /\ (c * 1023 / 65535 = 0 <-> c <= 64).
Proof.
  intros Hc.
  pose proof (Z.div_mod (c * 1023) 65535 ltac:(lia)) as Hdm.
  pose proof (Z.mod_pos_bound (c * 1023) 65535 ltac:(lia)) as Hm.
  set (q := c * 1023 / 65535) in *. set (r := (c * 1023) mod 65535) in *.
  clearbody q r. lia.
Qed.

Lemma scale_mono c1 c2 :
  c1 <= c2 -> c1 * 1023 / 65535 <= c2 * 1023 / 65535.
Proof. intros H. apply Z.div_le_mono; lia. Qed.

Lemma set_duty_cycle_micropython fmt self val :
  pwm.set_duty_cycle true fmt self val
  = Return (pwm.mkPWMOut (pwm._pin_number self)
              (pwm._pin self
               ++ [pwm.PWM_duty (Z.max 0 (Z.min 65535 val) * 1023 / 65535)])
              (pwm._frequency self) (Z.max 0 (Z.min 65535 val))).
Proof.
  unfold pwm.set_duty_cycle. rewrite scaled_value by lia. reflexivity.
Qed.

(** X14.  Under MicroPython the duty the setter sends to the pin is
    always within the ten bits [0, 1023] of [machine.PWM], grows with
    the argument, is 1023 exactly for arguments of 65535 and more, and
    is 0 for every argument up to 64: the duty cycles 1 to 64 switch
    the output off. *)
Theorem duty_sent_fits_ten_bits :
  forall (fmt : pwm.float_format) (self : pwm.PWMOut) (val : Z),
    exists self' d,
      pwm.set_duty_cycle true fmt self val = Return self'
      /\ pwm._pin self' = pwm._pin self ++ [pwm.PWM_duty d]
      /\ 0 <= d <= 1023
      /\ (d = 1023 <-> 65535 <= val)
      /\ (d = 0 <-> val <= 64)
      /\ (forall val2 self2 d2,
            val <= val2 ->
            pwm.set_duty_cycle true fmt self val2 = Return self2 ->
            pwm._pin self2 = pwm._pin self ++ [pwm.PWM_duty d2] ->
            d <= d2).
Proof.
  intros fmt self val. rewrite set_duty_cycle_micropython.
  eexists _, _. split; [reflexivity|]. split; [reflexivity|].
  pose proof (scale_bounds (Z.max 0 (Z.min 65535 val)) ltac:(lia))
    as (Hb & H1 & H0).
  split; [exact Hb|]. split; [rewrite H1; lia|]. split; [rewrite H0; lia|].
  intros val2 self2 d2 Hle Hrun Hpin.
  rewrite set_duty_cycle_micropython in Hrun. injection Hrun as <-.
  simpl in Hpin. apply app_inv_head in Hpin. injection Hpin as <-.
  apply scale_mono. lia.
Qed.

(** X15.  Writing back the duty cycle the property returns changes
    nothing: the stored value stays, and the pin receives the call it
    received before, with or without [MICROPY]; the frequency and the
    pin number are not touched by the setter. *)
Theorem duty_cycle_read_back_is_stable :
  forall (MICROPY : bool) (fmt : pwm.float_format) (self : pwm.PWMOut)
         (val : Z),
    exists self1 self2 c,
      pwm.set_duty_cycle MICROPY fmt self val = Return self1
      /\ pwm.set_duty_cycle MICROPY fmt self1 (pwm.duty_cycle self1)
         = Return self2
      /\ pwm.duty_cycle self2 = pwm.duty_cycle self1
      /\ pwm._pin self1 = pwm._pin self ++ [c]
      /\ pwm._pin self2 = pwm._pin self1 ++ [c]
      /\ pwm._frequency self2 = pwm._frequency self
      /\ pwm._pin_number self2 = pwm._pin_number self.
Proof.
  intros MICROPY fmt self val.
  assert (Hc : Z.max 0 (Z.min 65535 (Z.max 0 (Z.min 65535 val)))
               = Z.max 0 (Z.min 65535 val)) by lia.
  destruct MICROPY.
  - rewrite set_duty_cycle_micropython.
    eexists _, _, _. split; [reflexivity|].
    rewrite set_duty_cycle_micropython. simpl. rewrite Hc.
    split; [reflexivity|]. repeat split.
  - unfold pwm.set_duty_cycle. simpl.
    eexists _, _, _. split; [reflexivity|]. simpl. rewrite Hc.
    split; [reflexivity|]. repeat split.
Qed.

(** X16.  Under MicroPython the constructor refuses every frequency
    above 1 kHz with the esp8266 message, on every platform, the esp32
    included: of [A and B or C] the test [freq > 1000] stands alone, so
    the 40 MHz bound of the esp32 never decides.  A frequency below 1
    is refused on the esp82.. and esp32.. platforms only.  Between 1 and
    1000 the PWM is created with the scaled duty. *)
Theorem constructor_frequency_checks :
  forall (platform : string) (fmt : pwm.float_format) (pin freq duty : Z),
    (1000 < freq ->
     PWMOut.__init__ true platform fmt pin freq duty
     = Raise (ValueError PWMOut.esp8266_range))
    /\ (freq < 1 -> PWMOut.startswith "esp82" platform = true ->
        PWMOut.__init__ true platform fmt pin freq duty
        = Raise (ValueError PWMOut.esp8266_range))
    /\ (freq < 1 -> PWMOut.startswith "esp82" platform = false ->
        PWMOut.startswith "esp32" platform = true ->
        PWMOut.__init__ true platform fmt pin freq duty
        = Raise (ValueError PWMOut.esp32_range))
    /\ (0 <= duty <= 65535 ->
        1 <= freq <= 1000
        \/ (freq < 1 /\ PWMOut.startswith "esp82" platform = false
            /\ PWMOut.startswith "esp32" platform = false) ->
        PWMOut.__init__ true platform fmt pin freq duty
        = Return (pwm.mkPWMOut pin [] freq duty,
                  [PWMOut.machine_PWM pin freq (duty * 1023 / 65535)])).
Proof.
  intros platform fmt pin freq duty. unfold PWMOut.__init__.
  split; [|split; [|split]].
  - intros H. apply Z.ltb_lt in H. rewrite H, orb_true_r. reflexivity.
  - intros H H82. apply Z.ltb_lt in H. rewrite H82, H. reflexivity.
  - intros H H82 H32. rewrite H82, H32.
    assert (H1 : (1000 <? freq) = false) by (apply Z.ltb_ge; lia).
    apply Z.ltb_lt in H. rewrite H, H1. reflexivity.
  - intros Hd Hf.
    assert (H1 : (1000 <? freq) = false) by (apply Z.ltb_ge; lia).
    assert (H2 : (40000000 <? freq) = false) by (apply Z.ltb_ge; lia).
    rewrite H1, H2, scaled_value by exact Hd.
    destruct Hf as [Hf | (Hf & H82 & H32)].
    + assert (H0 : (freq <? 1) = false) by (apply Z.ltb_ge; lia).
      rewrite H0, !andb_false_r. reflexivity.
    + rewrite H82, H32. reflexivity.
Qed.

(** on an esp32, 5 kHz is refused as out of the range of the esp8266 *)
Example constructor_esp32_5kHz :
  PWMOut.__init__ true "esp32" pwm.Binary32 2 5000 0
  = Raise (ValueError "esp8266 only allows a frequency that ranges 1Hz to 1kHz").
Proof. reflexivity. Qed.

(** ** The UART wrapper *)

Lemma set_baudrate_all self vals :
  userial.baudrate (fold_left userial.set_baudrate vals self)
  = userial.baudrate self
  /\ userial.base (fold_left userial.set_baudrate vals self)
     = userial.base self ++ map userial.UART_init_baudrate vals.
Proof.
  revert self. induction vals as [|v vals IH]; intros self; simpl.
  - by rewrite app_nil_r.
  - destruct (IH (userial.set_baudrate self v)) as [Hb Hc].
    rewrite Hb, Hc. simpl. by rewrite <- app_assoc.
Qed.

Lemma last_cons (l : list Z) : forall x a, List.last (x :: l) a = List.last l x.
Proof.
  induction l as [|y l IH]; intros x a; [reflexivity|].
  change (List.last (x :: y :: l) a) with (List.last (y :: l) a).
  by rewrite !IH.
Qed.

Lemma line_rate_inits vals rate :
  userial.line_rate (map userial.UART_init_baudrate vals) rate
  = List.last vals rate.
Proof.
  revert rate. induction vals as [|v vals IH]; intros rate; [reflexivity|].
  simpl userial.line_rate. by rewrite IH, last_cons.
Qed.

(** X19.  The [baudrate] property of a [USART] always returns the rate
    given to the constructor: each assignment reconfigures the port, so
    that the port runs at the last rate assigned, but none updates what
    the property reads. *)
Theorem baudrate_property_keeps_the_first_rate :
  forall (tx rx : nat) (rate bits : Z) (parity : option Z)
         (stop timeout rxbuf : Z) (vals : list Z),
    let u := fold_left userial.set_baudrate vals
               (userial.__init__ tx rx rate bits parity stop timeout rxbuf) in
    userial.baudrate u = rate
    /\ userial.base u
       = userial.UART_new tx rx rate bits parity stop timeout rxbuf
         :: map userial.UART_init_baudrate vals
    /\ userial.line_rate (userial.base u) 0 = List.last vals rate.
Proof.
  intros tx rx rate bits parity stop timeout rxbuf vals u. subst u.
  destruct (set_baudrate_all
              (userial.__init__ tx rx rate bits parity stop timeout rxbuf)
              vals) as [Hb Hc].
  split; [exact Hb|]. split; [exact Hc|].
  rewrite Hc. simpl. apply line_rate_inits.
Qed.

(** ** Writing through a memoryview *)

(** X20.  Through a memoryview of a bytearray, [write] with indices
    inside the view sends the bytes at positions [start], ...,
    [end - 1] of the view, read from the bytearray underneath; the
    object it allocates is a narrower view, not a copy, and the
    bytearray is as it was. *)
Theorem write_memoryview_sends_the_window :
  forall (self : I2CDevice.t) (buf b off n : nat) (d : list Z) (start : Z)
         (end_ : option Z) (stop : bool) (w : World),
    heap w !! buf = Some (Memoryview b off n) ->
    heap w !! b = Some (Bytearray d) ->
    let e := match end_ with None => Z.of_nat n | Some e => e end in
    0 <= start <= e -> e <= Z.of_nat n ->
    let s := Z.to_nat start in
    let k := Z.to_nat (e - start) in
    let w' := snd (I2CDevice.write self buf start end_ stop w) in
    log w' = log w ++ [EvI2CWriteto (I2CDevice.i2c self)
                         (I2CDevice.device_address self)
                         (take k (drop (off + s) d)) stop]
    /\ heap w' = <[fresh_loc w := Memoryview b (off + s) k]> (heap w)
    /\ heap w' !! b = Some (Bytearray d).
Proof.
  intros self buf b off n d start end_ stop w Hbuf Hb e H1 H2 s k w'.
  subst w'.
  assert (He : end_or_len (Memoryview b off n) end_ = e) by by destruct end_.
  assert (Hne : fresh_loc w ≠ b) by by eapply fresh_loc_ne.
  assert (Hrun : I2CDevice.write self buf start end_ stop w
                 = I2C.answer
                     (emit (EvI2CWriteto (I2CDevice.i2c self)
                              (I2CDevice.device_address self)
                              (take k (drop (off + s) d)) stop)
                        (set_heap (insert (fresh_loc w)
                                     (Memoryview b (off + s) k)) w))).
  { unfold I2CDevice.write.
    unfold mbind at 1, M_bind, bind. rewrite (end_run _ _ _ _ Hbuf), He.
    unfold mbind at 1, M_bind, bind.
    rewrite (getitem_slice_run _ _ _ _ _ Hbuf).
    unfold slice_obj. rewrite (slice_bounds_in_range n start e H1 H2).
    fold s k.
    unfold I2C.writeto, deref. unfold_monad. simpl.
    rewrite lookup_insert_eq. simpl.
    rewrite lookup_insert_ne by done. by rewrite Hb. }
  rewrite Hrun, answer_run.
  destruct (fault_at 0 _); simpl;
    (split; [reflexivity|]); (split; [reflexivity|]);
    by rewrite lookup_insert_ne.
Qed.

Lemma write_memoryview_witness :
  log (snd (I2CDevice.write (I2CDevice.mk (I2C_given 0) None None None 16)
              1 1 (Some 3) true
              (mkWorld ∅ None
                 {[ 0%nat := Bytearray [10;11;12;13]; 1%nat := Memoryview 0 0 4 ]}
                 [] [] [] Refuse [])))
  = [EvI2CWriteto (I2C_given 0) 16 [11;12] true].
Proof.
  set (w := mkWorld ∅ None
              {[ 0%nat := Bytearray [10;11;12;13]; 1%nat := Memoryview 0 0 4 ]}
              [] [] [] Refuse []).
  assert (H1 : heap w !! 1%nat = Some (Memoryview 0 0 4))
    by (vm_compute; reflexivity).
  assert (H0 : heap w !! 0%nat = Some (Bytearray [10;11;12;13]))
    by (vm_compute; reflexivity).
  destruct (write_memoryview_sends_the_window
              (I2CDevice.mk (I2C_given 0) None None None 16)
              1 0 0 4 [10;11;12;13] 1 (Some 3) true w H1 H0
              ltac:(lia) ltac:(simpl; lia)) as (Hlog & _).
  exact Hlog.
Defined.

(** on a Raspberry Pi, a duty cycle too large for a float stops the
    constructor at [duty_cycle / 655.35] *)
Example constructor_raspberry_pi_huge_duty :
  PWMOut.__init__ false "linux" pwm.Binary64 18 500 (2 ^ 1024)
  = Raise (OverflowError "int too large to convert to float")
  /\ exists self calls,
       PWMOut.__init__ false "linux" pwm.Binary64 18 500 (2 ^ 1024 - 2 ^ 971)
       = Return (self, calls).
Proof. split; [vm_compute; reflexivity|]. eexists _, _. vm_compute. reflexivity. Qed.
